(** * ml/scorer.py: feature encoding, training and scoring

    A shallow embedding of [src/hyperliquid-trader/ml/scorer.py].

    - Python floats are IEEE-754 binary64 values, modelled with the
      Standard Library's executable specification [SpecFloat]
      (precision 53, maximal exponent 1024, round to nearest even).
    - JSON documents are the inductive type [value]; a Python [dict] is a
      [gmap] with string keys. A Python [str] is held as its UTF-8
      encoding, one [ascii] per byte.
    - Exceptions are explicit: fallible code returns a [result]; code that
      prints, exits or touches the model directory runs in the state and
      exception monad [M] over a [world] (file system and standard output).
    - What the script takes from the Python runtime and from scikit-learn,
      joblib and numpy without defining it (string to number conversion,
      [repr], the JSON codec, the classifier) is a field of [Builtins] or
      [Libs]; every statement below holds for all of them. *)

From Stdlib Require Import ZArith Bool List Lia Ascii String.
From Stdlib Require Import Floats.SpecFloat Sorting.Sorted.
From stdpp Require Import base option list strings gmap fin_maps pretty.

Set Warnings "-register-all".
Local Open Scope Z_scope.

(** ** Binary64 arithmetic *)

Module F64.

Definition prec : Z := 53.
Definition emax : Z := 1024.

Definition add : spec_float → spec_float → spec_float := SFadd prec emax.
Definition sub : spec_float → spec_float → spec_float := SFsub prec emax.
Definition div : spec_float → spec_float → spec_float := SFdiv prec emax.
Definition ltb : spec_float → spec_float → bool := SFltb.
Definition leb : spec_float → spec_float → bool := SFleb.

(** The nearest binary64 value to an integer (ties to even); infinite
    when the integer is out of range. *)
Definition of_Z (z : Z) : spec_float := binary_normalize prec emax z 0 false.

Definition zero : spec_float := S754_zero false.
Definition one : spec_float := of_Z 1.

Definition is_finite (f : spec_float) : bool :=
  match f with
  | S754_zero _ | S754_finite _ _ _ => true
  | S754_infinity _ | S754_nan => false
  end.

(** A well-formed binary64 datum: canonical mantissa, exponent in range. *)
Definition valid (f : spec_float) : bool := valid_binary prec emax f.

(** Truncation towards zero, [None] on infinities and NaN. *)
Definition trunc (f : spec_float) : option Z :=
  match f with
  | S754_zero _ => Some 0
  | S754_finite s m e =>
      let a := if 0 <=? e then Z.pos m * 2 ^ e else Z.pos m / 2 ^ (- e) in
      Some (if s then - a else a)
  | S754_infinity _ | S754_nan => None
  end.

(** [n / d] rounded to the nearest integer, ties to even ([0 <= n], [0 < d]). *)
Definition div_half_even (n d : Z) : Z :=
  let q := n / d in
  match (2 * (n mod d)) ?= d with
  | Lt => q
  | Gt => q + 1
  | Eq => if Z.even q then q else q + 1
  end.

(** Rounding to [nd] decimal places ([0 <= nd]): the decimal with [nd]
    places nearest to the exact value (ties to even), converted back to
    the nearest binary64. *)
Definition round_digits (x : spec_float) (nd : Z) : spec_float :=
  match x with
  | S754_finite s m e =>
      if 0 <=? e then x
      else
        let scale := 10 ^ nd in
        match div_half_even (Z.pos m * scale) (2 ^ (- e)) with
        | Z.pos n => div (S754_finite s n 0) (S754_finite false (Z.to_pos scale) 0)
        | _ => S754_zero s
        end
  | _ => x
  end.

End F64.

(** ** Values, exceptions and results *)

(** What [json.loads] can return, which is also what a row may hold. *)
Inductive value :=
| VNone
| VBool (b : bool)
| VInt (z : Z)
| VFloat (f : spec_float)
| VStr (s : string)
| VList (l : list value)
| VDict (d : gmap string value).

(** An element of a feature vector: a Python [int] or [float]. *)
Inductive num :=
| NInt (z : Z)
| NFloat (f : spec_float).

Definition num_finite (x : num) : bool :=
  match x with
  | NInt _ => true
  | NFloat f => F64.is_finite f
  end.

Inductive exn :=
| TypeError
| ValueError
| OverflowError
| AttributeError
| KeyError (key : string)
| IndexError
| JSONDecodeError (doc : string)
| OSError (path : string)
| LibraryError (what : string)
| ImportError (msg : string)
| RecursionError
| SystemExit (code : Z).

(** [except Exception] catches everything but [SystemExit]. *)
Definition is_Exception (e : exn) : bool :=
  match e with
  | SystemExit _ => false
  | _ => true
  end.

Inductive result (A : Type) :=
| Ok (a : A)
| Raise (e : exn).
Arguments Ok {A} a.
Arguments Raise {A} e.

#[global] Instance result_ret : MRet result := @Ok.
#[global] Instance result_bind : MBind result :=
  λ A B f m, match m with Ok a => f a | Raise e => Raise e end.

Definition is_Ok {A} (r : result A) : bool :=
  match r with Ok _ => true | Raise _ => false end.

(** ** The Python runtime *)

(** Built-in conversions the script calls and does not define. *)
(** Why [json.loads] rejects a document: it is not JSON
    ([json.JSONDecodeError]), it nests too deep ([RecursionError]) or it
    holds a number too long to convert (a plain [ValueError]). *)
Inductive json_failure :=
| NotJSON
| TooDeep
| TooLong.

Record Builtins := {
  (** [float(s)] on a string; [None] is [ValueError]. *)
  float_of_str : string → option spec_float;
  (** [int(s)] on a string; [None] is [ValueError]. *)
  int_of_str : string → option Z;
  (** [str(v)] on a value that is not a string. *)
  repr : value → string;
  (** [json.loads]; [None] when it raises, [json_error] says what. *)
  json_loads : string → option value;
  json_error : string → json_failure;
  (** [json.dumps(v, indent=2)]. *)
  json_dumps : value → string;
  (** [str(e)] on a caught exception. *)
  exn_str : exn → string
}.

Section Python.
Context (py : Builtins).

(** [float(v)] *)
Definition py_float (v : value) : result spec_float :=
  match v with
  | VFloat f => Ok f
  | VInt z =>
      let f := F64.of_Z z in
      if F64.is_finite f then Ok f else Raise OverflowError
  | VBool b => Ok (F64.of_Z (if b then 1 else 0))
  | VStr s =>
      match float_of_str py s with
      | Some f => Ok f
      | None => Raise ValueError
      end
  | VNone | VList _ | VDict _ => Raise TypeError
  end.

(** [int(v)] *)
Definition py_int (v : value) : result Z :=
  match v with
  | VInt z => Ok z
  | VBool b => Ok (if b then 1 else 0)
  | VFloat f =>
      match F64.trunc f with
      | Some z => Ok z
      | None =>
          match f with
          | S754_nan => Raise ValueError
          | _ => Raise OverflowError
          end
      end
  | VStr s =>
      match int_of_str py s with
      | Some z => Ok z
      | None => Raise ValueError
      end
  | VNone | VList _ | VDict _ => Raise TypeError
  end.

(** [str(v)] *)
Definition py_str (v : value) : string :=
  match v with
  | VStr s => s
  | _ => repr py v
  end.

(** [row.get(key, dflt)]; only a [dict] has the method. *)
Definition dict_get (row : value) (key : string) (dflt : value) : result value :=
  match row with
  | VDict d => Ok (default dflt (d !! key))
  | _ => Raise AttributeError
  end.

(** [min(x, n)] for a float [x] and an int [n]: the second argument
    replaces the first only when it is strictly smaller. *)
Definition py_min (x : spec_float) (n : Z) : num :=
  if F64.ltb (F64.of_Z n) x then NInt n else NFloat x.

(** True division by a float. *)
Definition py_truediv (a : num) (b : spec_float) : spec_float :=
  match a with
  | NInt z => F64.div (F64.of_Z z) b
  | NFloat f => F64.div f b
  end.

End Python.

(** ** Encoding tables *)

Definition REGIME_MAP : gmap string Z :=
  list_to_map [("quiet", 0); ("ranging", 1); ("trending", 2); ("volatile_trend", 3)].

Definition SIDE_MAP : gmap string Z :=
  list_to_map [("long", 0); ("short", 1)].

Definition RULE_MAP : gmap string Z :=
  list_to_map [("R1-mean-reversion", 0); ("R2-mean-reversion", 1); ("R3-trend", 2);
               ("R4-trend", 3); ("R6-sentiment", 4)].

Definition encode_rule (rule : string) : Z :=
  if String.prefix "C-" rule then 5
  else default 3 (RULE_MAP !! rule).

(** The float literals of [build_features]. *)
Definition lit_0_03 : spec_float := F64.div (F64.of_Z 3) (F64.of_Z 100).
Definition lit_0_01 : spec_float := F64.div (F64.of_Z 1) (F64.of_Z 100).
Definition lit_0_5 : spec_float := F64.div (F64.of_Z 1) (F64.of_Z 2).
Definition lit_1000_0 : spec_float := F64.of_Z 1000.
Definition lit_1_0 : spec_float := F64.of_Z 1.

(** [1.0 - min(alt_rank, 1000) / 1000.0] *)
Definition alt_rank_norm (alt_rank : spec_float) : spec_float :=
  F64.sub lit_1_0 (py_truediv (py_min alt_rank 1000) lit_1000_0).

(** The signed DI spread. *)
Definition di_spread (side_str : string) (plus_di minus_di : spec_float) : spec_float :=
  if String.eqb side_str "long" then F64.sub plus_di minus_di
  else F64.sub minus_di plus_di.

Section Features.
Context (py : Builtins).

(** [float(row.get(key, dflt))] *)
Definition float_field (row : value) (key : string) (dflt : value) : result spec_float :=
  v ← dict_get row key dflt; py_float py v.

(** [str(row.get(key, dflt))] *)
Definition str_field (row : value) (key : string) (dflt : string) : result string :=
  v ← dict_get row key (VStr dflt); mret (py_str py v).

Definition build_features (row : value) (coin_encoder : gmap string Z) : result (list num) :=
  adx ← float_field row "adx" (VInt 25);
  plus_di ← float_field row "plus_di" (VInt 20);
  minus_di ← float_field row "minus_di" (VInt 20);
  side_str ← str_field row "side" "long";
  let di_spread := di_spread side_str plus_di minus_di in
  rsi ← float_field row "rsi" (VInt 50);
  macd_hist ← float_field row "macd_histogram" (VInt 0);
  bb_width ← float_field row "bb_width" (VFloat lit_0_03);
  atr_pct ← float_field row "atr_pct" (VFloat lit_0_01);
  regime_str ← str_field row "regime" "ranging";
  let regime := default 1 (REGIME_MAP !! regime_str) in
  let side := default 0 (SIDE_MAP !! side_str) in
  rule_str ← str_field row "rule" "R4-trend";
  let rule := encode_rule rule_str in
  coin ← str_field row "coin" "BTC";
  let coin_enc := default (default 0 (coin_encoder !! "_unknown")) (coin_encoder !! coin) in
  galaxy ← float_field row "galaxy_score" (VInt 0);
  sentiment ← float_field row "sentiment_pct" (VInt 50);
  alt_rank ← float_field row "alt_rank" (VInt 500);
  let alt_rank_norm := alt_rank_norm alt_rank in
  mret [ NFloat adx; NFloat plus_di; NFloat minus_di; NFloat di_spread;
         NFloat rsi; NFloat macd_hist; NFloat bb_width; NFloat atr_pct;
         NInt regime; NInt side; NInt rule; NInt coin_enc;
         NFloat galaxy; NFloat sentiment; NFloat alt_rank_norm ].

End Features.

(** ** Text *)

(** ASCII white space as [str.strip] sees it. *)
Definition is_space (a : ascii) : bool :=
  let n := Ascii.N_of_ascii a in
  (((9 <=? n) && (n <=? 13)) || ((28 <=? n) && (n <=? 32)))%N.

Definition is_newline (a : ascii) : bool :=
  let n := Ascii.N_of_ascii a in
  ((n =? 10) || (n =? 13))%N.

(** The white space of [str.strip] beyond ASCII, in UTF-8: U+0085 and
    U+00A0 take two bytes; U+1680, U+2000 to U+200A, U+2028, U+2029,
    U+202F, U+205F and U+3000 take three. *)
Definition is_space2 (a b : ascii) : bool :=
  let a := Ascii.N_of_ascii a in
  let b := Ascii.N_of_ascii b in
  ((a =? 194) && ((b =? 133) || (b =? 160)))%N.

Definition is_space3 (a b c : ascii) : bool :=
  let a := Ascii.N_of_ascii a in
  let b := Ascii.N_of_ascii b in
  let c := Ascii.N_of_ascii c in
  (((a =? 225) && (b =? 154) && (c =? 128))
   || ((a =? 226) && (b =? 128)
       && (((128 <=? c) && (c <=? 138)) || (c =? 168) || (c =? 169) || (c =? 175)))
   || ((a =? 226) && (b =? 129) && (c =? 159))
   || ((a =? 227) && (b =? 128) && (c =? 128)))%N.

(** Dropping the white space at the head of a string; with [back] the
    string is read from its end, so every character comes last byte
    first. *)
Fixpoint strip_head (back : bool) (s : string) : string :=
  match s with
  | String a s1 =>
      if is_space a then strip_head back s1
      else
        match s1 with
        | String b s2 =>
            if (if back then is_space2 b a else is_space2 a b) then strip_head back s2
            else
              match s2 with
              | String c s3 =>
                  if (if back then is_space3 c b a else is_space3 a b c)
                  then strip_head back s3
                  else s
              | EmptyString => s
              end
        | EmptyString => s
        end
  | EmptyString => EmptyString
  end.

Fixpoint rev_onto (s acc : string) : string :=
  match s with
  | String a s' => rev_onto s' (String a acc)
  | EmptyString => acc
  end.

Definition lstrip (s : string) : string := strip_head false s.

Definition rstrip (s : string) : string :=
  rev_onto (strip_head true (rev_onto s EmptyString)) EmptyString.

Definition strip (s : string) : string := rstrip (lstrip s).

(** The lines of a text file opened in text mode. *)
Fixpoint splitlines (s : string) : list string :=
  match s with
  | String a s' =>
      if is_newline a then EmptyString :: splitlines s'
      else
        match splitlines s' with
        | l :: ls => String a l :: ls
        | [] => [String a EmptyString]
        end
  | EmptyString => [EmptyString]
  end.

(** ** The process: file system, standard output, exceptions *)

(** A fitted classifier as the scorer uses it. *)
Record classifier := {
  classes_ : list Z;
  (** [None]: the call raises. *)
  predict_proba : list (list num) → option (list (list spec_float))
}.

(** What [joblib.dump] stores and [joblib.load] returns. *)
Inductive pickle :=
| PClassifier (c : classifier)
| PEncoders (e : gmap string (gmap string Z)).

Inductive file :=
| Text (content : string)
| Pickled (p : pickle)
| Unreadable
| Directory.

(** One printed line: a JSON object, keys in the order written. *)
Definition jobj : Type := list (string * value).

Record world := {
  fs : gmap string file;
  stdout : list jobj
}.

Definition M (A : Type) : Type := world → result A * world.

#[global] Instance M_ret : MRet M := λ A a w, (Ok a, w).
#[global] Instance M_bind : MBind M :=
  λ A B f m w, match m w with
               | (Ok a, w') => f a w'
               | (Raise e, w') => (Raise e, w')
               end.

Definition lift {A} (r : result A) : M A := λ w, (r, w).

(** A call into a library: its failure surfaces as an exception. *)
Definition call {A} (what : string) (r : option A) : M A :=
  lift (match r with Some a => Ok a | None => Raise (LibraryError what) end).

Definition print (o : jobj) : M unit :=
  λ w, (Ok tt, {| fs := fs w; stdout := stdout w ++ [o] |}).

Definition sys_exit {A} (code : Z) : M A := lift (Raise (SystemExit code)).

(** [try: body except Exception as e: handler e] *)
Definition try_except {A} (body : M A) (handler : exn → M A) : M A :=
  λ w, match body w with
       | (Raise e, w') => if is_Exception e then handler e w' else (Raise e, w')
       | r => r
       end.

Definition path_exists (path : string) : M bool :=
  λ w, (Ok (bool_decide (is_Some (fs w !! path))), w).

(** [open(path).read()] *)
Definition read_text (path : string) : M string :=
  λ w, match fs w !! path with
       | Some (Text c) => (Ok c, w)
       | Some (Pickled _) => (Raise ValueError, w)
       | Some Unreadable | Some Directory | None => (Raise (OSError path), w)
       end.

Definition joblib_load (path : string) : M pickle :=
  λ w, match fs w !! path with
       | Some (Pickled p) => (Ok p, w)
       | Some (Text _) => (Raise (LibraryError "unpickle"), w)
       | Some Unreadable | Some Directory | None => (Raise (OSError path), w)
       end.

(** Opening [path] for writing and filling it: it fails, and nothing is
    written, when [path] is a directory. *)
Definition write_file (path : string) (f : file) : M unit :=
  λ w, match fs w !! path with
       | Some Directory => (Raise (OSError path), w)
       | _ => (Ok tt, {| fs := <[path := f]> (fs w); stdout := stdout w |})
       end.

(** [path.mkdir(parents=True, exist_ok=True)]: it fails when [path] is a
    file. The map of files is flat: a directory is an entry of its own. *)
Definition mkdir (path : string) : M unit :=
  λ w, match fs w !! path with
       | None => (Ok tt, {| fs := <[path := Directory]> (fs w); stdout := stdout w |})
       | Some Directory => (Ok tt, w)
       | Some _ => (Raise (OSError path), w)
       end.

(** How a run ends: an uncaught exception other than [SystemExit] prints a
    traceback and exits with status 1. *)
Record outcome := {
  exit_status : Z;
  uncaught : option exn;
  printed : list jobj;
  files : gmap string file
}.

Definition run (m : M unit) (w : world) : outcome :=
  match m w with
  | (Ok _, w') =>
      {| exit_status := 0; uncaught := None; printed := stdout w'; files := fs w' |}
  | (Raise (SystemExit c), w') =>
      {| exit_status := c; uncaught := None; printed := stdout w'; files := fs w' |}
  | (Raise e, w') =>
      {| exit_status := 1; uncaught := Some e; printed := stdout w'; files := fs w' |}
  end.

(** scikit-learn, numpy, joblib and the clock. An [import_*] field holds the
    exception the import raises, an [ImportError] or another one, when it
    fails; a library call that raises returns [None]. *)
Record Libs := {
  import_sklearn : option exn;
  import_numpy : option exn;
  import_joblib : option exn;
  cross_val_score : list (list num) → list Z → Z → option (list spec_float);
  cv_mean : list spec_float → spec_float;
  fit : list (list num) → list Z → option classifier;
  utcnow_isoformat : string
}.

Definition MODEL_DIR : string := "model".
Definition model_path : string := MODEL_DIR +:+ "/confidence_model.pkl".
Definition encoders_path : string := MODEL_DIR +:+ "/label_encoders.pkl".
Definition meta_path : string := MODEL_DIR +:+ "/training_meta.json".

Definition len {A} (l : list A) : Z := Z.of_nat (length l).

(** ** Training *)

Section Train.
Context (py : Builtins) (lib : Libs).

(** The exception [json.loads] raises on [doc]. *)
Definition json_exn (doc : string) : exn :=
  match json_error py doc with
  | NotJSON => JSONDecodeError doc
  | TooDeep => RecursionError
  | TooLong => ValueError
  end.

(** The loop of [load_jsonl] over the lines of the file: a blank line is
    passed over, and so is a line on which [json.loads] raises
    [json.JSONDecodeError]; any other exception of [json.loads] ends the
    loop. *)
Fixpoint decode_lines (lines : list string) : result (list value) :=
  match lines with
  | [] => Ok []
  | line :: rest =>
      let line := strip line in
      if String.eqb line "" then decode_lines rest
      else
        match json_loads py line with
        | Some row => rows ← decode_lines rest; mret (row :: rows)
        | None =>
            match json_error py line with
            | NotJSON => decode_lines rest
            | _ => Raise (json_exn line)
            end
        end
  end.

Definition load_jsonl (path : string) : M (list value) :=
  content ← read_text path;
  lift (decode_lines (splitlines content)).

(** [sorted(set(...))] on strings. *)
Fixpoint sorted_insert (c : string) (l : list string) : list string :=
  match l with
  | [] => [c]
  | x :: l' =>
      match String.compare c x with
      | Lt => c :: l
      | Eq => l
      | Gt => x :: sorted_insert c l'
      end
  end.

Definition sorted_set (l : list string) : list string := foldr sorted_insert [] l.

Definition build_coin_encoder (rows : list value) : result (gmap string Z) :=
  names ← mapM (λ r, str_field py r "coin" "BTC") rows;
  let coins := sorted_set names in
  let coin_encoder : gmap string Z :=
    list_to_map (zip coins (Z.of_nat <$> seq 0 (length coins))) in
  mret (<["_unknown" := Z.of_nat (size coin_encoder)]> coin_encoder).

(** The body of the per-row [try]: the features and the label, or [None]
    for a row with neither [won] nor [pnl]. A row that is not a [dict]
    never passes [build_features]. *)
Definition process_row (coin_encoder : gmap string Z) (row : value)
  : result (option (list num * Z)) :=
  features ← build_features py row coin_encoder;
  match row with
  | VDict d =>
      match d !! "won" with
      | Some w => label ← py_int py w; mret (Some (features, label))
      | None =>
          match d !! "pnl" with
          | Some p =>
              pnl ← py_float py p;
              mret (Some (features, if F64.leb F64.zero pnl then 1 else 0))
          | None => mret None
          end
      end
  | _ => Raise TypeError
  end.

Fixpoint encode_rows (coin_encoder : gmap string Z) (rows : list value)
    (X : list (list num)) (y : list Z) (skipped : Z)
  : result (list (list num) * list Z * Z) :=
  match rows with
  | [] => Ok (X, y, skipped)
  | row :: rest =>
      match process_row coin_encoder row with
      | Ok (Some (features, label)) =>
          encode_rows coin_encoder rest (X ++ [features]) (y ++ [label]) skipped
      | Ok None => encode_rows coin_encoder rest X y (skipped + 1)
      | Raise e =>
          if is_Exception e then encode_rows coin_encoder rest X y (skipped + 1)
          else Raise e
      end
  end.

Definition train_imports : option exn :=
  match import_sklearn lib with
  | Some e => Some e
  | None =>
      match import_numpy lib with
      | Some e => Some e
      | None => import_joblib lib
      end
  end.

Definition too_few_samples (n : Z) : jobj :=
  [("error", VStr ("Too few samples: " +:+ pretty n +:+ " (need >= 10)"))].

Definition too_few_valid (n skipped : Z) : jobj :=
  [("error", VStr ("Too few valid samples after processing: " +:+ pretty n
                   +:+ " (skipped " +:+ pretty skipped +:+ ")"))].

(** The rows of the primary file, then those of the live file when its
    path is given and exists. *)
Definition load_rows (data_path : string) (live_path : option string) : M (list value) :=
  rows ← load_jsonl data_path;
  match live_path with
  | Some p =>
      there ← path_exists p;
      if negb (String.eqb p "") && there
      then live_rows ← load_jsonl p; mret (rows ++ live_rows)
      else mret rows
  | None => mret rows
  end.

(** [[round(float(s), 4) for s in cv_scores]] *)
Definition rounded_scores (cv_scores : list spec_float) : value :=
  VList ((λ s, VFloat (F64.round_digits s 4)) <$> cv_scores).

(** The [meta] dictionary written to [training_meta.json]. *)
Definition training_meta (n : Z) (accuracy : spec_float) (cv_scores : list spec_float)
    (skipped : Z) : gmap string value :=
  list_to_map [("sampleCount", VInt n);
               ("accuracy", VFloat (F64.round_digits accuracy 4));
               ("lastTrainedAt", VStr (utcnow_isoformat lib +:+ "Z"));
               ("cvScores", rounded_scores cv_scores);
               ("skipped", VInt skipped)].

(** The object printed after a successful run. *)
Definition training_report (n : Z) (accuracy : spec_float) (cv_scores : list spec_float)
  : jobj :=
  [("ok", VBool true);
   ("sampleCount", VInt n);
   ("accuracy", VFloat (F64.round_digits accuracy 4));
   ("cvScores", rounded_scores cv_scores)].

(** The writes at the end of [train]: the directory, the model, the
    encoders and the metadata, in this order and none of them guarded. *)
Definition save_artifacts (clf : classifier) (coin_encoder : gmap string Z)
    (meta : gmap string value) : M unit :=
  mkdir MODEL_DIR;;
  write_file model_path (Pickled (PClassifier clf));;
  write_file encoders_path (Pickled (PEncoders {["coin_encoder" := coin_encoder]}));;
  write_file meta_path (Text (json_dumps py (VDict meta))).

Definition train (data_path : string) (live_path : option string) : M unit :=
  match train_imports with
  | Some (ImportError e) =>
      print [("error", VStr ("Missing dependency: " +:+ e +:+ ". Run ml/setup.sh first."))];;
      sys_exit 1
  | Some e => lift (Raise e)
  | None =>
      rows ← load_rows data_path live_path;
      if len rows <? 10 then print (too_few_samples (len rows));; sys_exit 1
      else
        coin_encoder ← lift (build_coin_encoder rows);
        '(X, y, skipped) ← lift (encode_rows coin_encoder rows [] [] 0);
        if len X <? 10 then print (too_few_valid (len X) skipped);; sys_exit 1
        else
          let n_folds := Z.min 5 (Z.max 2 (len X / 10)) in
          cv_scores ← call "cross_val_score" (cross_val_score lib X y n_folds);
          let accuracy := cv_mean lib cv_scores in
          clf ← call "fit" (fit lib X y);
          save_artifacts clf coin_encoder
            (training_meta (len X) accuracy cv_scores skipped);;
          print (training_report (len X) accuracy cv_scores)
  end.

End Train.

(** ** Scoring *)

Section Score.
Context (py : Builtins) (lib : Libs).

Definition score_imports : option exn :=
  match import_joblib lib with
  | Some e => Some e
  | None => import_numpy lib
  end.

(** [json.loads(doc)] *)
Definition loads (doc : string) : result value :=
  match json_loads py doc with
  | Some v => Ok v
  | None => Raise (json_exn py doc)
  end.

(** [json.load(open(path))] *)
Definition json_load (path : string) : M value :=
  doc ← read_text path; lift (loads doc).

(** [encoders[coin_encoder]], the subscript of the loaded pickle. *)
Definition get_coin_encoder (encoders : pickle) : result (gmap string Z) :=
  match encoders with
  | PEncoders e =>
      match e !! "coin_encoder" with
      | Some enc => Ok enc
      | None => Raise (KeyError "coin_encoder")
      end
  | PClassifier _ => Raise TypeError
  end.

(** [clf.predict_proba(X)[0]] *)
Definition first_proba (clf : pickle) (X : list (list num)) : result (list spec_float) :=
  match clf with
  | PClassifier c =>
      match predict_proba c X with
      | Some (p :: _) => Ok p
      | Some [] => Raise IndexError
      | None => Raise (LibraryError "predict_proba")
      end
  | PEncoders _ => Raise AttributeError
  end.

(** [list(clf.classes_)] *)
Definition get_classes (clf : pickle) : result (list Z) :=
  match clf with
  | PClassifier c => Ok (classes_ c)
  | PEncoders _ => Raise AttributeError
  end.

(** [classes.index(1) if 1 in classes else -1] *)
Fixpoint index_of (z : Z) (l : list Z) : option nat :=
  match l with
  | [] => None
  | x :: l' => if x =? z then Some 0%nat else S <$> index_of z l'
  end.

Definition win_index (classes : list Z) : Z :=
  match index_of 1 classes with
  | Some i => Z.of_nat i
  | None => -1
  end.

(** [float(proba[win_idx]) if win_idx >= 0 else 0.5] *)
Definition score_value (proba : list spec_float) (win_idx : Z) : result spec_float :=
  if 0 <=? win_idx then
    match proba !! Z.to_nat win_idx with
    | Some p => Ok p
    | None => Raise IndexError
    end
  else Ok lit_0_5.

Definition null_score (msg : string) : jobj :=
  [("score", VNone); ("error", VStr msg)].

(** The [try] block up to the read of standard input: the model, the
    coin encoder and the metadata ([{}] when the file is absent). *)
Definition load_artifacts : M (pickle * gmap string Z * value) :=
  clf ← joblib_load model_path;
  encoders ← joblib_load encoders_path;
  coin_encoder ← lift (get_coin_encoder encoders);
  has_meta ← path_exists meta_path;
  meta ← (if has_meta : bool then json_load meta_path else mret (VDict ∅));
  mret (clf, coin_encoder, meta).

(** The rest of the [try] block, from [json.loads(input_str)] to the
    object handed to [print]. *)
Definition score_row (clf : pickle) (coin_encoder : gmap string Z) (meta : value)
    (input_str : string) : result jobj :=
  row ← loads input_str;
  features ← build_features py row coin_encoder;
  proba ← first_proba clf [features];
  classes ← get_classes clf;
  let win_idx := win_index classes in
  score_val ← score_value proba win_idx;
  samples ← dict_get meta "sampleCount" (VInt 0);
  mret [("score", VFloat (F64.round_digits score_val 4));
        ("modelSamples", samples)].

Definition score (stdin : string) : M unit :=
  match score_imports with
  | Some (ImportError e) => print (null_score ("Missing dependency: " +:+ e))
  | Some e => lift (Raise e)
  | None =>
      trained ← path_exists model_path;
      if negb trained then print (null_score "Model not trained yet")
      else
        try_except
          ('(clf, coin_encoder, meta) ← load_artifacts;
           let input_str := strip stdin in
           if String.eqb input_str "" then print (null_score "Empty stdin")
           else obj ← lift (score_row clf coin_encoder meta input_str); print obj)
          (λ e, print (null_score (exn_str py e)))
  end.

End Score.

(** ** Entry point *)

Inductive mode := Train | Score.

Record args := {
  arg_mode : mode;
  arg_data : option string;
  arg_live : option string
}.

Definition main (py : Builtins) (lib : Libs) (a : args) (stdin : string) : M unit :=
  match arg_mode a with
  | Train =>
      match arg_data a with
      | Some d =>
          if String.eqb d "" then
            print [("error", VStr "--data is required for training")];; sys_exit 1
          else train py lib d (arg_live a)
      | None =>
          print [("error", VStr "--data is required for training")];; sys_exit 1
      end
  | Score => score py lib stdin
  end.

(** ** Rounded results *)

(** The result of rounding a datum of value below [2 ^ K]: zero, or a
    datum of value at most [2 ^ K] whose exponent is no larger than the
    format asks for such a value. *)
Definition rounded_below (K e : Z) (s : bool) (r : spec_float) : Prop :=
  r = S754_zero s \/
  exists (m' : positive) (e' : Z),
    r = (if e' <=? F64.emax - F64.prec then S754_finite s m' e' else S754_infinity s) /\
    e' <= Z.max e (Z.max (K - 52) (-1074)) /\ Z.pos m' <= 2 ^ (K - e').

Definition signed_nonzero (s : bool) (r : spec_float) : Prop :=
  (exists m e, r = S754_finite s m e) \/ r = S754_infinity s.

(** ** The encoding as the specification words it *)

Definition spec_regime_code (s : string) : Z :=
  if String.eqb s "quiet" then 0
  else if String.eqb s "ranging" then 1
  else if String.eqb s "trending" then 2
  else if String.eqb s "volatile_trend" then 3
  else 1.

Definition spec_side_code (s : string) : Z :=
  if String.eqb s "long" then 0
  else if String.eqb s "short" then 1
  else 0.

Definition spec_rule_code (s : string) : Z :=
  if String.prefix "C-" s then 5
  else if String.eqb s "R1-mean-reversion" then 0
  else if String.eqb s "R2-mean-reversion" then 1
  else if String.eqb s "R3-trend" then 2
  else if String.eqb s "R4-trend" then 3
  else if String.eqb s "R6-sentiment" then 4
  else 3.

Definition spec_coin_code (coin_encoder : gmap string Z) (coin : string) : Z :=
  match coin_encoder !! coin with
  | Some c => c
  | None => default 0 (coin_encoder !! "_unknown")
  end.

(** The default of each numeric field. *)
Definition spec_default (key : string) : value :=
  if String.eqb key "adx" then VInt 25
  else if String.eqb key "plus_di" then VInt 20
  else if String.eqb key "minus_di" then VInt 20
  else if String.eqb key "rsi" then VInt 50
  else if String.eqb key "macd_histogram" then VInt 0
  else if String.eqb key "bb_width" then VFloat lit_0_03
  else if String.eqb key "atr_pct" then VFloat lit_0_01
  else if String.eqb key "galaxy_score" then VInt 0
  else if String.eqb key "sentiment_pct" then VInt 50
  else if String.eqb key "alt_rank" then VInt 500
  else VNone.

Definition numeric_keys : list string :=
  ["adx"; "plus_di"; "minus_di"; "rsi"; "macd_histogram"; "bb_width"; "atr_pct";
   "galaxy_score"; "sentiment_pct"; "alt_rank"].

Section SpecFeatures.
Context (py : Builtins) (d : gmap string value) (coin_encoder : gmap string Z).

(** A numeric field, or its default; NaN stands for a value that does
    not convert. *)
Definition spec_number (key : string) : spec_float :=
  match py_float py (default (spec_default key) (d !! key)) with
  | Ok f => f
  | Raise _ => S754_nan
  end.

Definition spec_text (key dflt : string) : string :=
  py_str py (default (VStr dflt) (d !! key)).

Definition spec_di_spread : spec_float :=
  if String.eqb (spec_text "side" "long") "long"
  then F64.sub (spec_number "plus_di") (spec_number "minus_di")
  else F64.sub (spec_number "minus_di") (spec_number "plus_di").

Definition spec_alt_rank_norm : spec_float :=
  F64.sub lit_1_0 (py_truediv (py_min (spec_number "alt_rank") 1000) lit_1000_0).

(** [adx, plus_di, minus_di, di_spread, rsi, macd_histogram, bb_width,
    atr_pct, regime_code, side_code, rule_code, coin_code, galaxy_score,
    sentiment_pct, alt_rank_norm] *)
Definition spec_features : list num :=
  [ NFloat (spec_number "adx");
    NFloat (spec_number "plus_di");
    NFloat (spec_number "minus_di");
    NFloat spec_di_spread;
    NFloat (spec_number "rsi");
    NFloat (spec_number "macd_histogram");
    NFloat (spec_number "bb_width");
    NFloat (spec_number "atr_pct");
    NInt (spec_regime_code (spec_text "regime" "ranging"));
    NInt (spec_side_code (spec_text "side" "long"));
    NInt (spec_rule_code (spec_text "rule" "R4-trend"));
    NInt (spec_coin_code coin_encoder (spec_text "coin" "BTC"));
    NFloat (spec_number "galaxy_score");
    NFloat (spec_number "sentiment_pct");
    NFloat spec_alt_rank_norm ].

(** Every numeric field that is present converts to a finite,
    well-formed binary64 value. *)
Definition numeric_field_ok (key : string) : bool :=
  match d !! key with
  | None => true
  | Some v =>
      match py_float py v with
      | Ok f => F64.valid f && F64.is_finite f
      | Raise _ => false
      end
  end.

Definition numeric_fields_ok : bool := forallb numeric_field_ok numeric_keys.

End SpecFeatures.

Definition is_record (v : value) : bool :=
  match v with
  | VDict _ => true
  | _ => false
  end.

(** ** Data for the examples *)

Definition dquote : string := String (ascii_of_nat 34) EmptyString.
Definition newline : string := String (ascii_of_nat 10) EmptyString.

(** One line of a training file: a record that only says the trade won. *)
Definition won_line : string := "{" +:+ dquote +:+ "won" +:+ dquote +:+ ": 1}".

Definition won_row : gmap string value := {["won" := VInt 1]}.

(** A runtime that decodes the two documents of the examples and
    converts no string to a number. *)
Definition demo_py : Builtins :=
  {| float_of_str := λ _, None;
     int_of_str := λ _, None;
     repr := λ _, "?";
     json_loads := λ s, if String.eqb s "{}" then Some (VDict ∅)
                        else if String.eqb s won_line then Some (VDict won_row)
                        else None;
     json_error := λ _, NotJSON;
     json_dumps := λ _, "{}";
     exn_str := λ e, match e with
                     | OSError path => "No such file or directory: " +:+ path
                     | JSONDecodeError _ => "Expecting value"
                     | _ => "error"
                     end |}.

Definition demo_clf : classifier :=
  {| classes_ := [0; 1];
     predict_proba := λ X, Some ((λ _, [lit_0_5; lit_0_5]) <$> X) |}.

Definition demo_lib : Libs :=
  {| import_sklearn := None;
     import_numpy := None;
     import_joblib := None;
     cross_val_score := λ _ _ k, Some (replicate (Z.to_nat k) lit_0_5);
     cv_mean := λ _, lit_0_5;
     fit := λ _ _, Some demo_clf;
     utcnow_isoformat := "2024-01-01T00:00:00" |}.

Fixpoint repeat_line (n : nat) (l : string) : string :=
  match n with
  | O => EmptyString
  | S n' => l +:+ newline +:+ repeat_line n' l
  end.

(** A world whose only file is [data.jsonl], holding [n] winning rows. *)
Definition demo_world (n : nat) : world :=
  {| fs := {["data.jsonl" := Text (repeat_line n won_line)]}; stdout := [] |}.

Definition empty_world : world := {| fs := ∅; stdout := [] |}.

(** The model directory after a training run. *)
Definition trained_world : world :=
  {| fs := list_to_map
             [(model_path, Pickled (PClassifier demo_clf));
              (encoders_path, Pickled (PEncoders {["coin_encoder" := {["_unknown" := 0]}]}))];
     stdout := [] |}.

Definition max_float : spec_float := S754_finite false 9007199254740991 971.

Definition min_float : spec_float := S754_finite true 9007199254740991 971.

(** Rows of the examples. *)
Definition side_row (side : string) (plus_di minus_di : Z) : gmap string value :=
  {["side" := VStr side; "plus_di" := VInt plus_di; "minus_di" := VInt minus_di]}.

Definition rank_row (alt_rank : Z) : gmap string value :=
  {["alt_rank" := VInt alt_rank]}.

Definition wide_row : gmap string value :=
  {["plus_di" := VFloat max_float; "minus_di" := VFloat min_float]}.

(** ** Labels as the specification words them *)

(** The label of a training record: [won] cast to an integer when the
    field is present, else 1 or 0 as [pnl] is at least 0 or below it, else
    none. *)
Definition spec_label (py : Builtins) (d : gmap string value) : option (result Z) :=
  match d !! "won" with
  | Some w => Some (py_int py w)
  | None =>
      match d !! "pnl" with
      | Some p => Some (pnl ← py_float py p; mret (if F64.leb F64.zero pnl then 1 else 0))
      | None => None
      end
  end.

(** What a row adds to the training set; [None] is a skipped row. *)
Definition spec_sample (py : Builtins) (enc : gmap string Z) (row : value)
  : option (list num * Z) :=
  match row with
  | VDict d =>
      match build_features py row enc, spec_label py d with
      | Ok features, Some (Ok label) => Some (features, label)
      | _, _ => None
      end
  | _ => None
  end.

Definition minus_half : spec_float := F64.div (F64.of_Z (-1)) (F64.of_Z 2).

(** Four rows: a win booked with a loss, a small loss, a row without
    outcome and a row whose [adx] does not convert. *)
Definition label_rows : list value :=
  [ VDict {["won" := VInt 1; "pnl" := VInt (-100)]};
    VDict {["pnl" := VFloat minus_half]};
    VDict ∅;
    VDict {["adx" := VNone; "won" := VInt 1]} ].

Definition train_args (data : string) : args :=
  {| arg_mode := Train; arg_data := Some data; arg_live := None |}.


(** A model directory whose encoder file is missing. *)
Definition half_trained_world : world :=
  {| fs := {[model_path := Pickled (PClassifier demo_clf)]}; stdout := [] |}.

(** The model directory can be made and the three artifacts written. *)
Definition can_write (w : world) : bool :=
  match fs w !! MODEL_DIR with
  | None | Some Directory => true
  | Some _ => false
  end
  && forallb (λ path, match fs w !! path with
                      | Some Directory => false
                      | _ => true
                      end)
       [model_path; encoders_path; meta_path].

(** The nearest integers: [k] is within a half of [n / d], and even when
    [n / d] lies halfway between two integers ([0 < d]). *)
Definition spec_nearest_even (n d k : Z) : Prop :=
  2 * Z.abs (n - k * d) <= d ∧ (2 * Z.abs (n - k * d) = d → Z.even k = true).

(** [r] is [x] rounded to [nd] decimal places as the specification says
    it: the binary64 nearest to [k / 10 ^ nd], where [k] is the integer
    nearest to [x * 10 ^ nd] in absolute value, with the sign of [x]. A datum
    without fractional bits, an infinity and NaN are left as they are. *)
Definition spec_rounded (x : spec_float) (nd : Z) (r : spec_float) : Prop :=
  match x with
  | S754_finite s m e =>
      if 0 <=? e then r = x
      else
        ∃ k : Z,
          0 <= k ∧ spec_nearest_even (Z.pos m * 10 ^ nd) (2 ^ (- e)) k ∧
          r = match k with
              | Z.pos n =>
                  SFdiv 53 1024 (S754_finite s n 0)
                    (S754_finite false (Z.to_pos (10 ^ nd)) 0)
              | _ => S754_zero s
              end
  | _ => r = x
  end.

(** A classifier that gives one third to class 0 and two thirds to
    class 1. *)
Definition two_thirds : spec_float := F64.div (F64.of_Z 2) (F64.of_Z 3).
Definition one_third : spec_float := F64.div (F64.of_Z 1) (F64.of_Z 3).

Definition thirds_clf : classifier :=
  {| classes_ := [0; 1];
     predict_proba := λ X, Some ((λ _, [one_third; two_thirds]) <$> X) |}.

(** A classifier that knows the class 0 only. *)
Definition losses_clf : classifier :=
  {| classes_ := [0];
     predict_proba := λ X, Some ((λ _, [F64.of_Z 1]) <$> X) |}.

Definition world_with (clf : classifier) (meta_doc : option string) : world :=
  {| fs := match meta_doc with
           | Some doc => <[meta_path := Text doc]>
           | None => id
           end
             (list_to_map
                [(model_path, Pickled (PClassifier clf));
                 (encoders_path, Pickled (PEncoders {["coin_encoder" := {["_unknown" := 0]}]}))]);
     stdout := [] |}.


(** Libraries without scikit-learn. *)
Definition missing_lib : Libs :=
  {| import_sklearn := Some (ImportError "No module named 'sklearn'");
     import_numpy := None;
     import_joblib := None;
     cross_val_score := cross_val_score demo_lib;
     cv_mean := cv_mean demo_lib;
     fit := fit demo_lib;
     utcnow_isoformat := utcnow_isoformat demo_lib |}.

(** A world whose only file is [data.jsonl], holding [n] rows without
    outcome. *)
Definition unlabelled_world (n : nat) : world :=
  {| fs := {["data.jsonl" := Text (repeat_line n "{}")]}; stdout := [] |}.

(** [demo_world 10] with a directory where the encoders are to go. *)
Definition blocked_world : world :=
  {| fs := <[encoders_path := Directory]> (fs (demo_world 10)); stdout := [] |}.



(** ** Names for the further properties *)

(** The fields [build_features] reads. *)
Definition feature_keys : list string :=
  ["adx"; "plus_di"; "minus_di"; "side"; "rsi"; "macd_histogram"; "bb_width";
   "atr_pct"; "regime"; "rule"; "coin"; "galaxy_score"; "sentiment_pct"; "alt_rank"].

(** The three files of the model directory. *)
Definition is_artifact (path : string) : bool :=
  String.eqb path model_path || String.eqb path encoders_path || String.eqb path meta_path.

(** The same libraries with another cross-validation routine. *)
Definition with_cross_val_score (lib : Libs)
    (cv : list (list num) → list Z → Z → option (list spec_float)) : Libs :=
  {| import_sklearn := import_sklearn lib;
     import_numpy := import_numpy lib;
     import_joblib := import_joblib lib;
     cross_val_score := cv;
     cv_mean := cv_mean lib;
     fit := fit lib;
     utcnow_isoformat := utcnow_isoformat lib |}.

(** A cross-validation routine that refuses what [train] never asks. *)
Definition strict_cross_val_score (X : list (list num)) (y : list Z) (k : Z)
  : option (list spec_float) :=
  if (2 <=? k) && (k <=? 5) && (10 <=? len X) && (len y =? len X)
  then Some (replicate (Z.to_nat k) lit_0_5)
  else None.

(** Two rows that differ only in the outcome they carry. *)
Definition outcome_row_a : gmap string value :=
  {["adx" := VInt 30; "coin" := VStr "ETH"; "won" := VInt 1]}.
Definition outcome_row_b : gmap string value :=
  {["adx" := VInt 30; "coin" := VStr "ETH"; "pnl" := VInt (-5)]}.

(** The order of [sorted] on strings. *)
Definition string_lt (a b : string) : Prop := String.compare a b = Lt.

(** A runtime that decodes [[]] to the empty list. *)
Definition list_py : Builtins :=
  {| float_of_str := float_of_str demo_py;
     int_of_str := int_of_str demo_py;
     repr := repr demo_py;
     json_loads := λ s, if String.eqb s "[]" then Some (VList []) else json_loads demo_py s;
     json_error := json_error demo_py;
     json_dumps := json_dumps demo_py;
     exn_str := exn_str demo_py |}.

(** The metadata of a run on ten winning rows. *)
Definition demo_meta : gmap string value :=
  training_meta demo_lib 10 lit_0_5 [lit_0_5; lit_0_5] 0.

(** A runtime whose codec carries [demo_meta] through the file. *)
Definition echo_py : Builtins :=
  {| float_of_str := float_of_str demo_py;
     int_of_str := int_of_str demo_py;
     repr := repr demo_py;
     json_loads := λ s, if String.eqb s "meta" then Some (VDict demo_meta)
                        else json_loads demo_py s;
     json_error := json_error demo_py;
     json_dumps := λ _, "meta";
     exn_str := exn_str demo_py |}.

(** Rows that name two coins, out of order and with a repetition. *)
Definition coin_rows : list value :=
  [ VDict {["coin" := VStr "SOL"]}; VDict {["coin" := VStr "ETH"]};
    VDict {["coin" := VStr "SOL"]} ].

(** * Binary64 rounding *)

Lemma pow2_pos (k : Z) : 0 <= k -> 0 < 2 ^ k.
Proof. intros; apply Z.pow_pos_nonneg; lia. Qed.

Lemma pow2_split (a b : Z) : 0 <= a -> 0 <= b -> 2 ^ (a + b) = 2 ^ a * 2 ^ b.
Proof. intros; apply Z.pow_add_r; lia. Qed.

Lemma pow2_succ (k : Z) : 0 <= k -> 2 ^ (k + 1) = 2 * 2 ^ k.
Proof. intros. rewrite pow2_split by lia. change (2 ^ 1) with 2. lia. Qed.

Lemma pow2_le (a b : Z) : 0 <= a -> a <= b -> 2 ^ a <= 2 ^ b.
Proof. intros; apply Z.pow_le_mono_r; lia. Qed.

Lemma pow2_lt_inv (a b : Z) : 0 <= b -> 2 ^ a < 2 ^ b -> a < b.
Proof. intros Hb H. apply (Z.pow_lt_mono_r_iff 2); lia. Qed.

Lemma digits2_pos_bounds (p : positive) :
  2 ^ (Z.pos (digits2_pos p) - 1) <= Z.pos p < 2 ^ Z.pos (digits2_pos p).
Proof.
  induction p as [p IH | p IH |]; cbn [digits2_pos].
  - rewrite Pos2Z.inj_succ. replace (Z.succ (Z.pos (digits2_pos p)) - 1) with ((Z.pos (digits2_pos p) - 1) + 1) by lia.
    unfold Z.succ. rewrite !pow2_succ by lia. lia.
  - rewrite Pos2Z.inj_succ. replace (Z.succ (Z.pos (digits2_pos p)) - 1) with ((Z.pos (digits2_pos p) - 1) + 1) by lia.
    unfold Z.succ. rewrite !pow2_succ by lia. lia.
  - cbn. lia.
Qed.

(** digits of a non-negative integer *)
Lemma Zdigits2_nonneg (m : Z) : 0 <= Zdigits2 m.
Proof. destruct m; cbn; lia. Qed.

Lemma Zdigits2_lt_pow (m k : Z) : 0 <= m -> 0 <= k -> m < 2 ^ k -> Zdigits2 m <= k.
Proof.
  intros Hm Hk Hlt. destruct m as [|p|p]; cbn; try lia.
  pose proof (digits2_pos_bounds p) as [Hlo _].
  assert (Z.pos (digits2_pos p) - 1 < k); [|lia].
  apply pow2_lt_inv; lia.
Qed.

Lemma Zdigits2_le_pow (m k : Z) : 0 <= m -> 0 <= k -> m <= 2 ^ k -> Zdigits2 m <= k + 1.
Proof.
  intros Hm Hk Hle. apply Zdigits2_lt_pow; try lia.
  rewrite pow2_succ by lia. pose proof (pow2_pos k Hk). lia.
Qed.

Lemma Zdigits2_ge_pow (m : Z) : 0 < m -> 2 ^ (Zdigits2 m - 1) <= m.
Proof.
  intros Hm. destruct m as [|p|p]; try lia. cbn [Zdigits2].
  apply digits2_pos_bounds.
Qed.

(** right shifts *)
Lemma shr_1_m (mrs : shr_record) : 0 <= shr_m mrs -> shr_m (shr_1 mrs) = shr_m mrs / 2.
Proof.
  destruct mrs as [m r s]. cbn [shr_m]. intros Hm.
  destruct m as [|p|p]; [reflexivity| |lia].
  destruct p as [p|p|]; cbn [shr_1 shr_m].
  - apply Z.div_unique with 1; lia.
  - apply Z.div_unique with 0; lia.
  - reflexivity.
Qed.

Lemma iter_shr_1_m (n : positive) (mrs : shr_record) :
  0 <= shr_m mrs -> shr_m (SpecFloat.iter_pos shr_1 n mrs) = shr_m mrs / 2 ^ Z.pos n.
Proof.
  revert mrs. induction n as [n IH | n IH |]; intros mrs Hm; cbn [SpecFloat.iter_pos].
  - assert (H1 : 0 <= shr_m (shr_1 mrs)) by (rewrite shr_1_m by lia; apply Z.div_pos; lia).
    assert (H2 : 0 <= shr_m (SpecFloat.iter_pos shr_1 n (shr_1 mrs))) by (rewrite IH by lia; apply Z.div_pos; [lia | apply pow2_pos; lia]).
    rewrite IH by lia. rewrite IH by lia. rewrite shr_1_m by lia.
    rewrite !Z.div_div by (try apply pow2_pos; lia).
    f_equal. replace (Z.pos n~1) with (1 + Z.pos n + Z.pos n) by lia.
    rewrite !pow2_split by lia. change (2 ^ 1) with 2. lia.
  - assert (H2 : 0 <= shr_m (SpecFloat.iter_pos shr_1 n mrs)) by (rewrite IH by lia; apply Z.div_pos; [lia | apply pow2_pos; lia]).
    rewrite IH by lia. rewrite IH by lia.
    rewrite !Z.div_div by (try apply pow2_pos; lia).
    f_equal. replace (Z.pos n~0) with (Z.pos n + Z.pos n) by lia.
    rewrite !pow2_split by lia. lia.
  - rewrite shr_1_m by lia. reflexivity.
Qed.

Lemma shr_record_of_loc_m (m : Z) (l : location) : shr_m (shr_record_of_loc m l) = m.
Proof. destruct l as [|[]]; reflexivity. Qed.

(** [shr_fexp] drops [n] low bits, [n] being what the target exponent asks. *)
Lemma shr_fexp_spec (m e : Z) (l : location) :
  0 <= m ->
  let n := Z.max 0 (fexp F64.prec F64.emax (Zdigits2 m + e) - e) in
  shr_m (fst (shr_fexp F64.prec F64.emax m e l)) = m / 2 ^ n /\
  snd (shr_fexp F64.prec F64.emax m e l) = e + n.
Proof.
  intros Hm n. unfold shr_fexp, shr. subst n.
  destruct (fexp F64.prec F64.emax (Zdigits2 m + e) - e) as [|p|p] eqn:E; cbn [fst snd].
  - rewrite shr_record_of_loc_m. change (Z.max 0 0) with 0. rewrite Z.div_1_r. lia.
  - rewrite iter_shr_1_m by (rewrite shr_record_of_loc_m; lia).
    rewrite shr_record_of_loc_m. rewrite Z.max_r by lia. split; reflexivity.
  - rewrite shr_record_of_loc_m. rewrite Z.max_l by lia. rewrite Z.div_1_r. lia.
Qed.

Lemma round_nearest_even_bounds (m : Z) (l : location) :
  m <= round_nearest_even m l <= m + 1.
Proof. destruct l as [|[]]; cbn; try lia. destruct (Z.even m); lia. Qed.


Lemma fexp_eq (x : Z) : fexp F64.prec F64.emax x = Z.max (x - 53) (-1074).
Proof. reflexivity. Qed.

Lemma fexp_ge (x : Z) : -1074 <= fexp F64.prec F64.emax x.
Proof. rewrite fexp_eq. lia. Qed.

Lemma binary_round_aux_bound (s : bool) (m e : Z) (l : location) (K : Z) :
  0 <= m -> -1074 <= K -> e <= K -> m < 2 ^ (K - e) ->
  rounded_below K e s (binary_round_aux F64.prec F64.emax s m e l).
Proof.
  intros Hm HK He Hlt. unfold rounded_below, binary_round_aux.
  pose proof (shr_fexp_spec m e l Hm) as [Hm1 He1].
  destruct (shr_fexp F64.prec F64.emax m e l) as [mrs1 e1]. cbn [fst snd] in Hm1, He1.
  pose proof (Zdigits2_lt_pow m (K - e) Hm ltac:(lia) Hlt) as Hd.
  pose proof (Zdigits2_nonneg m) as Hd0.
  rewrite fexp_eq in Hm1, He1.
  set (n1 := Z.max 0 (Z.max (Zdigits2 m + e - 53) (-1074) - e)) in *.
  assert (Hn1 : 0 <= n1) by lia.
  assert (He1K : e1 <= K) by lia.
  assert (Hma : 0 <= shr_m mrs1 < 2 ^ (K - e1)).
  { rewrite Hm1. split.
    - apply Z.div_pos; [lia | apply pow2_pos; lia].
    - apply Z.div_lt_upper_bound; [apply pow2_pos; lia|].
      rewrite <- pow2_split by lia. replace (n1 + (K - e1)) with (K - e) by lia. exact Hlt. }
  pose proof (round_nearest_even_bounds (shr_m mrs1) (loc_of_shr_record mrs1)) as Hmb.
  set (mb := round_nearest_even (shr_m mrs1) (loc_of_shr_record mrs1)) in *.
  assert (Hmb0 : 0 <= mb) by lia.
  assert (HmbK : mb <= 2 ^ (K - e1)) by lia.
  pose proof (shr_fexp_spec mb e1 loc_Exact Hmb0) as [Hm2 He2].
  destruct (shr_fexp F64.prec F64.emax mb e1 loc_Exact) as [mrs2 e2]. cbn [fst snd] in Hm2, He2.
  pose proof (Zdigits2_le_pow mb (K - e1) Hmb0 ltac:(lia) HmbK) as Hdb.
  pose proof (Zdigits2_nonneg mb) as Hdb0.
  rewrite fexp_eq in Hm2, He2.
  set (n2 := Z.max 0 (Z.max (Zdigits2 mb + e1 - 53) (-1074) - e1)) in *.
  assert (Hn2 : 0 <= n2) by lia.
  assert (He2K : e2 <= K) by lia.
  assert (Hmc : 0 <= shr_m mrs2 <= 2 ^ (K - e2)).
  { rewrite Hm2. split.
    - apply Z.div_pos; [lia | apply pow2_pos; lia].
    - apply Z.div_le_upper_bound; [apply pow2_pos; lia|].
      rewrite <- pow2_split by lia. replace (n2 + (K - e2)) with (K - e1) by lia. exact HmbK. }
  destruct (shr_m mrs2) as [|p|p].
  - left; reflexivity.
  - right. exists p, e2. split; [reflexivity|]. split; [lia|]. apply Hmc.
  - lia.
Qed.

Lemma iter_xO_spec (d m : positive) : Z.pos (Pos.iter xO m d) = Z.pos m * 2 ^ Z.pos d.
Proof.
  induction d as [|d IH] using Pos.peano_ind.
  - cbn. lia.
  - rewrite Pos.iter_succ. rewrite Pos2Z.inj_succ. unfold Z.succ.
    rewrite pow2_succ by lia. change (Z.pos (Pos.iter xO m d)~0) with (2 * Z.pos (Pos.iter xO m d)). lia.
Qed.

Lemma shl_align_spec (mx : positive) (ex ex' : Z) :
  snd (shl_align mx ex ex') = Z.min ex ex' /\
  Z.pos (fst (shl_align mx ex ex')) = Z.pos mx * 2 ^ (ex - Z.min ex ex').
Proof.
  unfold shl_align. destruct (ex' - ex) as [|d|d] eqn:E; cbn [fst snd].
  - rewrite Z.min_l by lia. replace (ex - ex) with 0 by lia. cbn. lia.
  - rewrite Z.min_l by lia. replace (ex - ex) with 0 by lia. cbn. lia.
  - rewrite Z.min_r by lia. rewrite iter_xO_spec. replace (ex - ex') with (Z.pos d) by lia. lia.
Qed.

Lemma binary_round_bound (s : bool) (m : positive) (e K : Z) :
  -1074 <= K -> e <= K -> Z.pos m < 2 ^ (K - e) ->
  rounded_below K (K - 52) s (binary_round F64.prec F64.emax s m e).
Proof.
  intros HK He Hlt. unfold binary_round.
  pose proof (shl_align_spec m e (fexp F64.prec F64.emax (Z.pos (digits2_pos m) + e))) as [Hez Hmz].
  destruct (shl_align m e (fexp F64.prec F64.emax (Z.pos (digits2_pos m) + e))) as [mz ez].
  cbn [fst snd] in Hez, Hmz. rewrite fexp_eq in Hez. rewrite fexp_eq in Hmz.
  pose proof (Zdigits2_lt_pow (Z.pos m) (K - e) ltac:(lia) ltac:(lia) Hlt) as Hd.
  cbn [Zdigits2] in Hd.
  assert (Hb : rounded_below K ez s (binary_round_aux F64.prec F64.emax s (Z.pos mz) ez loc_Exact)).
  { apply binary_round_aux_bound; try lia.
    rewrite Hmz, <- Hez. replace (K - ez) with ((K - e) + (e - ez)) by lia.
    rewrite pow2_split by lia. apply Z.mul_lt_mono_pos_r; [apply pow2_pos; lia | exact Hlt]. }
  destruct Hb as [Hz | (m' & e' & Hr & He' & Hm')]; [left; exact Hz|].
  right. exists m', e'. split; [exact Hr|]. split; [lia | exact Hm'].
Qed.

(** Rounding a positive datum whose exponent is in range never gives zero. *)
Lemma shr_fexp_pos (m e : Z) (l : location) :
  0 < m -> -1074 <= e ->
  0 < shr_m (fst (shr_fexp F64.prec F64.emax m e l)) /\ -1074 <= snd (shr_fexp F64.prec F64.emax m e l).
Proof.
  intros Hm He. pose proof (shr_fexp_spec m e l ltac:(lia)) as [H1 H2].
  rewrite H1, H2. rewrite fexp_eq.
  pose proof (Zdigits2_ge_pow m Hm) as Hd.
  set (d := Zdigits2 m) in *.
  split; [|lia].
  destruct (Z.le_gt_cases (Z.max (d + e - 53) (-1074) - e) 0) as [Hn | Hn].
  - rewrite Z.max_l by lia. rewrite Z.div_1_r. exact Hm.
  - rewrite Z.max_r by lia. replace (Z.max (d + e - 53) (-1074) - e) with (d - 53) in * by lia.
    apply Z.lt_le_trans with 1; [lia|].
    apply Z.div_le_lower_bound; [apply pow2_pos; lia|].
    rewrite Z.mul_1_r. apply Z.le_trans with (2 ^ (d - 1)); [apply pow2_le; lia | exact Hd].
Qed.

Lemma binary_round_aux_pos (s : bool) (m e : Z) (l : location) :
  0 < m -> -1074 <= e -> signed_nonzero s (binary_round_aux F64.prec F64.emax s m e l).
Proof.
  intros Hm He. unfold binary_round_aux.
  pose proof (shr_fexp_pos m e l Hm He) as [Hm1 He1].
  destruct (shr_fexp F64.prec F64.emax m e l) as [mrs1 e1]. cbn [fst snd] in Hm1, He1.
  pose proof (round_nearest_even_bounds (shr_m mrs1) (loc_of_shr_record mrs1)) as Hmb.
  set (mb := round_nearest_even (shr_m mrs1) (loc_of_shr_record mrs1)) in *.
  pose proof (shr_fexp_pos mb e1 loc_Exact ltac:(lia) He1) as [Hm2 He2].
  destruct (shr_fexp F64.prec F64.emax mb e1 loc_Exact) as [mrs2 e2]. cbn [fst snd] in Hm2, He2.
  destruct (shr_m mrs2) as [|p|p]; try lia.
  destruct (e2 <=? F64.emax - F64.prec); [left; eauto | right; reflexivity].
Qed.

Lemma binary_round_pos (s : bool) (m : positive) (e : Z) :
  -1074 <= e -> signed_nonzero s (binary_round F64.prec F64.emax s m e).
Proof.
  intros He. unfold binary_round.
  pose proof (shl_align_spec m e (fexp F64.prec F64.emax (Z.pos (digits2_pos m) + e))) as [Hez _].
  destruct (shl_align m e (fexp F64.prec F64.emax (Z.pos (digits2_pos m) + e))) as [mz ez].
  cbn [fst snd] in Hez. pose proof (fexp_ge (Z.pos (digits2_pos m) + e)).
  apply binary_round_aux_pos; lia.
Qed.


Lemma valid_finite_inv (s : bool) (m : positive) (e : Z) :
  valid_binary F64.prec F64.emax (S754_finite s m e) = true ->
  -1074 <= e <= 971 /\ Z.pos m < 2 ^ 53 /\ (-1074 < e -> 2 ^ 52 <= Z.pos m).
Proof.
  cbn [valid_binary]. unfold bounded, canonical_mantissa. rewrite fexp_eq.
  intros H. apply andb_true_iff in H as [Hc Hb].
  apply Z.eqb_eq in Hc. apply Z.leb_le in Hb. change (F64.emax - F64.prec) with 971 in Hb.
  pose proof (digits2_pos_bounds m) as [Hlo Hhi].
  set (d := Z.pos (digits2_pos m)) in *.
  split; [lia|]. split.
  - apply Z.lt_le_trans with (2 ^ d); [exact Hhi | apply pow2_le; lia].
  - intros He. replace d with 53 in Hlo by lia. exact Hlo.
Qed.

Lemma signed_nonzero_pos (r : spec_float) : signed_nonzero false r -> SFltb (S754_zero false) r = true.
Proof. intros [(m & e & ->) | ->]; reflexivity. Qed.

(** On well-formed data, [x - y] is positive as soon as [y < x]. *)
Lemma SFsub_pos (x y : spec_float) :
  valid_binary F64.prec F64.emax x = true -> valid_binary F64.prec F64.emax y = true ->
  SFltb y x = true -> SFltb (S754_zero false) (SFsub F64.prec F64.emax x y) = true.
Proof.
  intros Vx Vy Hlt.
  destruct x as [sx | sx | | sx mx ex], y as [sy | sy | | sy my ey];
    try discriminate Hlt;
    try (destruct sx, sy; try discriminate Hlt; reflexivity);
    try (destruct sx; try discriminate Hlt; reflexivity);
    try (destruct sy; try discriminate Hlt; reflexivity).
  apply valid_finite_inv in Vx as (Hex & Hmx & Hnx).
  apply valid_finite_inv in Vy as (Hey & Hmy & Hny).
  apply signed_nonzero_pos. unfold SFsub.
  pose proof (shl_align_spec mx ex (Z.min ex ey)) as [_ HX].
  pose proof (shl_align_spec my ey (Z.min ex ey)) as [_ HY].
  rewrite (Z.min_r ex (Z.min ex ey)) in HX by lia.
  rewrite (Z.min_r ey (Z.min ex ey)) in HY by lia.
  set (X := fst (shl_align mx ex (Z.min ex ey))) in *.
  set (Y := fst (shl_align my ey (Z.min ex ey))) in *.
  assert (Hpos : 0 < cond_Zopp sx (Z.pos X) - cond_Zopp sy (Z.pos Y)).
  { unfold SFltb, SFcompare in Hlt.
    change (Pos.compare_cont Eq my mx) with (Pos.compare my mx) in Hlt.
    revert Hlt.
    destruct sx, sy; cbn [cond_Zopp]; try discriminate; try lia.
    - (* both negative: |x| < |y| *)
      destruct (Z.compare_spec ey ex) as [E | E | E]; try discriminate.
      + subst ey. rewrite Z.min_id, Z.sub_diag, Z.mul_1_r in HX, HY.
        destruct (Pos.compare_spec my mx) as [E' | E' | E']; try discriminate. lia.
      + rewrite Z.min_l in HX, HY by lia. rewrite Z.sub_diag, Z.mul_1_r in HX.
        assert (2 ^ 1 <= 2 ^ (ey - ex)) by (apply pow2_le; lia). change (2 ^ 1) with 2 in *.
        assert (2 ^ 52 <= Z.pos my) by (apply Hny; lia). nia.
    - (* both positive: y < x *)
      destruct (Z.compare_spec ey ex) as [E | E | E]; try discriminate.
      + subst ey. rewrite Z.min_id, Z.sub_diag, Z.mul_1_r in HX, HY.
        destruct (Pos.compare_spec my mx) as [E' | E' | E']; try discriminate. lia.
      + rewrite Z.min_r in HX, HY by lia. rewrite Z.sub_diag, Z.mul_1_r in HY.
        assert (2 ^ 1 <= 2 ^ (ex - ey)) by (apply pow2_le; lia). change (2 ^ 1) with 2 in *.
        assert (2 ^ 52 <= Z.pos mx) by (apply Hnx; lia). nia. }
  destruct (cond_Zopp sx (Z.pos X) - cond_Zopp sy (Z.pos Y)) as [|p|p] eqn:E; try lia.
  cbn [binary_normalize]. apply binary_round_pos. lia.
Qed.

Lemma lit_1000_0_eq : lit_1000_0 = S754_finite false 8796093022208000 (-43).
Proof. reflexivity. Qed.

Lemma lit_1_0_eq : lit_1_0 = S754_finite false 4503599627370496 (-52).
Proof. reflexivity. Qed.

Lemma rounded_below_finite (K e0 : Z) (s : bool) (r : spec_float) :
  rounded_below K e0 s r -> e0 <= 971 -> K <= 1023 -> F64.is_finite r = true.
Proof.
  intros [-> | (m & e & -> & He & Hm)] H0 HK; [reflexivity|].
  replace (e <=? F64.emax - F64.prec) with true; [reflexivity|].
  symmetry. apply Z.leb_le. change (F64.emax - F64.prec) with 971. lia.
Qed.

Lemma rounded_below_mono (K K' : Z) (s : bool) (r : spec_float) :
  -1074 <= K -> K <= K' ->
  rounded_below K (K - 52) s r -> rounded_below K' (K' - 52) s r.
Proof.
  intros HK HK' [-> | (m & e & -> & He & Hm)]; [left; reflexivity|].
  right. exists m, e. split; [reflexivity|]. split; [lia|].
  apply Z.le_trans with (2 ^ (K - e)); [exact Hm | apply pow2_le; lia].
Qed.

(** Division by the literal [1000.0]. *)
Lemma SFdiv_1000_bound (s : bool) (m : positive) (e K : Z) :
  Z.pos m < 2 ^ 53 -> -1074 <= K -> e + 43 <= K ->
  (forall j, 0 <= j -> 0 <= j + (e + 43 - K) ->
             Z.pos m * 2 ^ (j + (e + 43 - K)) < 8796093022208000 * 2 ^ j) ->
  rounded_below K (K - 52) s (F64.div (S754_finite s m e) lit_1000_0).
Proof.
  intros Hm HK He H. rewrite lit_1000_0_eq. unfold F64.div, SFdiv, SFdiv_core_binary.
  rewrite xorb_false_r.
  change (Zdigits2 8796093022208000) with 53. rewrite fexp_eq.
  pose proof (Zdigits2_lt_pow (Z.pos m) 53 ltac:(lia) ltac:(lia) Hm) as Hd.
  pose proof (Zdigits2_nonneg (Z.pos m)) as Hd0.
  set (d := Zdigits2 (Z.pos m)) in *.
  replace (e - -43) with (e + 43) by lia.
  set (ez := Z.min (Z.max (d + e - (53 + -43) - 53) (-1074)) (e + 43)).
  assert (Hez : ez <= e + 43) by lia.
  assert (Hez' : ez <= Z.max (K - 52) (-1074)) by lia.
  set (m' := match e + 43 - ez with Z.pos _ => Z.shiftl (Z.pos m) (e + 43 - ez) | 0 => Z.pos m | Z.neg _ => 0 end).
  assert (Hm' : m' = Z.pos m * 2 ^ (e + 43 - ez)).
  { subst m'. destruct (e + 43 - ez) as [|p|p] eqn:E; try lia.
    apply Z.shiftl_mul_pow2. lia. }
  destruct (Z.div_eucl m' 8796093022208000) as [q r] eqn:Ediv.
  assert (Hq : q = m' / 8796093022208000) by (unfold Z.div; rewrite Ediv; reflexivity).
  assert (Hb : rounded_below K ez s (binary_round_aux F64.prec F64.emax s q ez (new_location 8796093022208000 r))).
  { apply binary_round_aux_bound; try lia.
    - rewrite Hq. apply Z.div_pos; [|lia]. rewrite Hm'. pose proof (pow2_pos (e + 43 - ez) ltac:(lia)). lia.
    - rewrite Hq. apply Z.div_lt_upper_bound; [lia|]. rewrite Hm'.
      replace (e + 43 - ez) with ((K - ez) + (e + 43 - K)) by lia.
      apply H; lia. }
  destruct Hb as [Hz | (m1 & e1 & Hr & He1 & Hm1)]; [left; exact Hz|].
  right. exists m1, e1. split; [exact Hr|]. split; [lia | exact Hm1].
Qed.

Lemma shl_align_one (ez : Z) :
  ez <= -52 -> Z.pos (fst (shl_align 4503599627370496 (-52) ez)) = 2 ^ (- ez).
Proof.
  intros H. pose proof (shl_align_spec 4503599627370496 (-52) ez) as [_ HX].
  rewrite HX. rewrite Z.min_r by lia.
  change (Z.pos 4503599627370496) with (2 ^ 52). rewrite <- pow2_split by lia.
  f_equal. lia.
Qed.

(** [1.0 - q] for a datum [q] in [[0, 1]]. *)
Lemma one_minus_le_one (mq : positive) (eq : Z) :
  eq <= -52 -> Z.pos mq <= 2 ^ (- eq) ->
  rounded_below 0 (-52) false (F64.sub lit_1_0 (S754_finite false mq eq)).
Proof.
  intros He Hm. rewrite lit_1_0_eq. unfold F64.sub, SFsub.
  rewrite Z.min_r by lia. rewrite shl_align_one by lia.
  pose proof (shl_align_spec mq eq eq) as [_ HY]. rewrite Z.min_id, Z.sub_diag, Z.mul_1_r in HY.
  rewrite HY. cbn [cond_Zopp].
  destruct (2 ^ (- eq) - Z.pos mq) as [|p|p] eqn:E; cbn [binary_normalize].
  - left; reflexivity.
  - apply (binary_round_bound false p eq 0); try lia.
    replace (0 - eq) with (- eq) by lia. lia.
  - lia.
Qed.

Lemma compare_cont_Eq (p q : positive) : Pos.compare_cont Eq p q = Pos.compare p q.
Proof. reflexivity. Qed.

Lemma rounded_below_unit (r : spec_float) :
  rounded_below 0 (-52) false r ->
  F64.leb F64.zero r = true /\ F64.leb r lit_1_0 = true.
Proof.
  intros [-> | (m & e & -> & He & Hm)].
  { split; reflexivity. }
  assert (Hle : (e <=? F64.emax - F64.prec) = true).
  { apply Z.leb_le. change (F64.emax - F64.prec) with 971. clear Hm. lia. }
  rewrite Hle.
  split; [reflexivity|].
  rewrite lit_1_0_eq. unfold F64.leb, SFleb, SFcompare.
  rewrite compare_cont_Eq.
  destruct (Z.compare_spec e (-52)) as [E | E | E]; [| reflexivity | exfalso; clear Hm; lia].
  subst e. change (2 ^ (0 - -52)) with (Z.pos 4503599627370496) in Hm.
  destruct (Pos.compare_spec m 4503599627370496) as [E | E | E]; try reflexivity.
  exfalso. lia.
Qed.

(** [1.0 - q] for a datum [q] of magnitude at most [2 ^ K]. *)
Lemma one_minus_finite (sq : bool) (mq : positive) (eq K : Z) :
  -1074 <= K <= 1015 -> eq <= Z.max (K - 52) (-1074) -> Z.pos mq <= 2 ^ (K - eq) ->
  F64.is_finite (F64.sub lit_1_0 (S754_finite sq mq eq)) = true.
Proof.
  intros HK He Hm. rewrite lit_1_0_eq. unfold F64.sub, SFsub.
  set (ez := Z.min (-52) eq).
  rewrite shl_align_one by lia.
  pose proof (shl_align_spec mq eq ez) as [_ HY]. rewrite (Z.min_r eq ez) in HY by lia.
  rewrite HY. cbn [cond_Zopp].
  set (K' := Z.max K 0 + 2).
  assert (HX : 2 ^ (- ez) <= 2 ^ (K' - 2 - ez)) by (apply pow2_le; lia).
  assert (HY' : Z.pos mq * 2 ^ (eq - ez) <= 2 ^ (K' - 2 - ez)).
  { apply Z.le_trans with (2 ^ (K - eq) * 2 ^ (eq - ez)).
    - apply Z.mul_le_mono_nonneg_r; [|exact Hm]. pose proof (pow2_pos (eq - ez) ltac:(lia)). lia.
    - rewrite <- pow2_split by lia. apply pow2_le; lia. }
  assert (H4 : 2 ^ (K' - ez) = 4 * 2 ^ (K' - 2 - ez)).
  { replace (K' - ez) with (2 + (K' - 2 - ez)) by lia. rewrite pow2_split by lia. reflexivity. }
  pose proof (pow2_pos (- ez) ltac:(lia)) as HXpos.
  assert (HYpos : 0 < Z.pos mq * 2 ^ (eq - ez)).
  { pose proof (pow2_pos (eq - ez) ltac:(lia)). lia. }
  set (X := 2 ^ (- ez)) in *. set (Y := Z.pos mq * 2 ^ (eq - ez)) in *.
  assert (Hfin : forall s (p : positive), Z.pos p < 2 ^ (K' - ez) ->
            F64.is_finite (binary_round F64.prec F64.emax s p ez) = true).
  { intros s p Hp. apply (rounded_below_finite K' (K' - 52) s); try lia.
    apply binary_round_bound; lia. }
  destruct sq; cbn [cond_Zopp].
  - destruct (X - - Y) as [|p|p] eqn:E; cbn [binary_normalize]; try reflexivity; apply Hfin; lia.
  - destruct (X - Y) as [|p|p] eqn:E; cbn [binary_normalize]; try reflexivity; apply Hfin; lia.
Qed.

Lemma of_Z_1000 : F64.of_Z 1000 = S754_finite false 8796093022208000 (-43).
Proof. reflexivity. Qed.

Lemma pow2_53 : 2 ^ 53 = 9007199254740992.
Proof. reflexivity. Qed.

Lemma div_1000_any (s : bool) (m : positive) (e : Z) :
  F64.valid (S754_finite s m e) = true ->
  rounded_below (e + 44) (e + 44 - 52) s (F64.div (S754_finite s m e) lit_1000_0).
Proof.
  intros V. apply valid_finite_inv in V as (He & Hm & _).
  apply SFdiv_1000_bound; try lia.
  intros j Hj Hj'. replace (j + (e + 43 - (e + 44))) with (j - 1) in * by lia.
  assert (Hs : 2 ^ j = 2 * 2 ^ (j - 1)).
  { replace j with ((j - 1) + 1) at 1 by lia. apply pow2_succ. lia. }
  rewrite Hs.
  pose proof (pow2_pos (j - 1) ltac:(lia)) as HP.
  apply Z.lt_le_trans with (2 ^ 53 * 2 ^ (j - 1)).
  - apply Z.mul_lt_mono_pos_r; assumption.
  - rewrite pow2_53. generalize dependent (2 ^ (j - 1)). intros P _ HP. lia.
Qed.

Lemma div_1000_unit (m : positive) (e : Z) :
  F64.valid (S754_finite false m e) = true ->
  F64.ltb (F64.of_Z 1000) (S754_finite false m e) = false ->
  (m <> 8796093022208000%positive \/ e <> -43) ->
  rounded_below 0 (-52) false (F64.div (S754_finite false m e) lit_1000_0).
Proof.
  intros V Hlt Hne. pose proof (div_1000_any false m e V) as Hany.
  apply valid_finite_inv in V as (He & Hm & _).
  rewrite of_Z_1000 in Hlt.
  unfold F64.ltb, SFltb, SFcompare in Hlt.
  rewrite compare_cont_Eq in Hlt.
  revert Hlt. destruct (Z.compare_spec (-43) e) as [E | E | E]; try discriminate.
  - subst e. destruct (Pos.compare_spec 8796093022208000 m) as [E | E | E]; try discriminate.
    + intros _. exfalso. destruct Hne as [Hne | Hne]; apply Hne; [symmetry; exact E | reflexivity].
    + intros _. apply (SFdiv_1000_bound false m (-43) 0).
      * exact Hm.
      * discriminate.
      * discriminate.
      * intros j Hj _. replace (j + (-43 + 43 - 0)) with j by (clear; lia).
        apply Z.mul_lt_mono_pos_r; [apply pow2_pos; exact Hj | exact E].
  - intros _. apply (rounded_below_mono (e + 44) 0 false _ ltac:(lia) ltac:(lia) Hany).
Qed.

Lemma leb_971 (e : Z) : e <= 971 -> (e <=? F64.emax - F64.prec) = true.
Proof. intros H. apply Z.leb_le. exact H. Qed.

(** [alt_rank_norm] of a non-negative rank lies in the unit interval. *)
Lemma alt_rank_norm_range (x : spec_float) :
  F64.valid x = true -> F64.leb F64.zero x = true ->
  F64.leb F64.zero (alt_rank_norm x) = true /\ F64.leb (alt_rank_norm x) lit_1_0 = true.
Proof.
  intros V Hx. destruct x as [s | s | | s m e].
  - destruct s; vm_compute; split; reflexivity.
  - destruct s; [discriminate Hx | vm_compute; split; reflexivity].
  - discriminate Hx.
  - destruct s; [discriminate Hx|].
    unfold alt_rank_norm, py_min.
    destruct (F64.ltb (F64.of_Z 1000) (S754_finite false m e)) eqn:Hlt.
    + vm_compute; split; reflexivity.
    + cbn [py_truediv].
      destruct (Pos.eq_dec m 8796093022208000%positive) as [Em | Em];
        [destruct (Z.eq_dec e (-43)) as [Ee | Ee] |].
      * subst m e. vm_compute; split; reflexivity.
      * destruct (div_1000_unit m e V Hlt (or_intror Ee)) as [Hz | (mq & eq & Hq & Heq & Hmq)].
        -- rewrite Hz. vm_compute; split; reflexivity.
        -- rewrite Hq, leb_971 by (clear - Heq; lia).
           apply rounded_below_unit, one_minus_le_one; [clear - Heq; lia|].
           replace (- eq) with (0 - eq) by (clear; lia). exact Hmq.
      * destruct (div_1000_unit m e V Hlt (or_introl Em)) as [Hz | (mq & eq & Hq & Heq & Hmq)].
        -- rewrite Hz. vm_compute; split; reflexivity.
        -- rewrite Hq, leb_971 by (clear - Heq; lia).
           apply rounded_below_unit, one_minus_le_one; [clear - Heq; lia|].
           replace (- eq) with (0 - eq) by (clear; lia). exact Hmq.
Qed.

(** [alt_rank_norm] of a finite rank is finite. *)
Lemma alt_rank_norm_finite (x : spec_float) :
  F64.valid x = true -> F64.is_finite x = true ->
  F64.is_finite (alt_rank_norm x) = true.
Proof.
  intros V Hx. destruct x as [s | s | | s m e]; try discriminate Hx.
  - destruct s; vm_compute; reflexivity.
  - unfold alt_rank_norm, py_min.
    destruct (F64.ltb (F64.of_Z 1000) (S754_finite s m e)) eqn:Hlt.
    + vm_compute; reflexivity.
    + cbn [py_truediv].
      pose proof (valid_finite_inv s m e V) as (He & _ & _).
      destruct (div_1000_any s m e V) as [Hz | (mq & eq & Hq & Heq & Hmq)].
      * rewrite Hz. destruct s; vm_compute; reflexivity.
      * rewrite Hq, leb_971 by (clear - Heq He; lia).
        apply (one_minus_finite s mq eq (e + 44)); [clear - He; lia | clear - Heq; lia | exact Hmq].
Qed.
(** * The encoding tables *)

Lemma lookup_cons_eqb {A} (k : string) (v : A) (l : list (string * A)) (s : string) :
  (list_to_map ((k, v) :: l) : gmap string A) !! s
  = if String.eqb s k then Some v else (list_to_map l : gmap string A) !! s.
Proof.
  simpl. destruct (String.eqb_spec s k) as [->|Hne].
  - apply lookup_insert_eq.
  - apply lookup_insert_ne. congruence.
Qed.

Ltac table_lookup :=
  repeat rewrite lookup_cons_eqb; simpl list_to_map; rewrite lookup_empty;
  repeat match goal with |- context [String.eqb ?a ?b] => destruct (String.eqb a b) end;
  reflexivity.

Lemma REGIME_MAP_lookup (s : string) :
  default 1 (REGIME_MAP !! s) = spec_regime_code s.
Proof. unfold REGIME_MAP, spec_regime_code. table_lookup. Qed.

Lemma SIDE_MAP_lookup (s : string) :
  default 0 (SIDE_MAP !! s) = spec_side_code s.
Proof. unfold SIDE_MAP, spec_side_code. table_lookup. Qed.

Lemma RULE_MAP_lookup (s : string) :
  default 3 (RULE_MAP !! s) =
  if String.eqb s "R1-mean-reversion" then 0
  else if String.eqb s "R2-mean-reversion" then 1
  else if String.eqb s "R3-trend" then 2
  else if String.eqb s "R4-trend" then 3
  else if String.eqb s "R6-sentiment" then 4
  else 3.
Proof. unfold RULE_MAP. table_lookup. Qed.

Lemma coin_lookup (enc : gmap string Z) (coin : string) :
  default (default 0 (enc !! "_unknown")) (enc !! coin) = spec_coin_code enc coin.
Proof. unfold spec_coin_code. destruct (enc !! coin); reflexivity. Qed.

(** * [build_features] on a record *)

Section FeatureLemmas.
Context (py : Builtins).

Lemma float_field_dict (d : gmap string value) (key : string) (dflt : value) :
  float_field py (VDict d) key dflt = py_float py (default dflt (d !! key)).
Proof. reflexivity. Qed.

Lemma str_field_dict (d : gmap string value) (key dflt : string) :
  str_field py (VDict d) key dflt = Ok (py_str py (default (VStr dflt) (d !! key))).
Proof. reflexivity. Qed.

Lemma spec_number_Ok (d : gmap string value) (key : string) (f : spec_float) :
  py_float py (default (spec_default key) (d !! key)) = Ok f →
  spec_number py d key = f.
Proof. unfold spec_number. intros ->. reflexivity. Qed.

(** Only a [dict] has [get]. *)
Lemma build_features_not_dict (row : value) (enc : gmap string Z) :
  is_record row = true ∨ build_features py row enc = Raise AttributeError.
Proof. destruct row; (left; reflexivity) || (right; reflexivity). Qed.

(** Whatever [build_features] returns on a record is the vector of the
    fifteen features in their order, and every numeric field converted. *)
Lemma build_features_Ok (d : gmap string value) (enc : gmap string Z) (fs : list num) :
  build_features py (VDict d) enc = Ok fs →
  fs = spec_features py d enc ∧
  ∀ k, k ∈ numeric_keys → py_float py (default (spec_default k) (d !! k)) = Ok (spec_number py d k).
Proof.
  unfold build_features.
  rewrite !float_field_dict, !str_field_dict.
  unfold mbind, result_bind, mret, result_ret.
  destruct (py_float py (default (VInt 25) (d !! "adx"))) as [x1|] eqn:E1; [|discriminate].
  destruct (py_float py (default (VInt 20) (d !! "plus_di"))) as [x2|] eqn:E2; [|discriminate].
  destruct (py_float py (default (VInt 20) (d !! "minus_di"))) as [x3|] eqn:E3; [|discriminate].
  destruct (py_float py (default (VInt 50) (d !! "rsi"))) as [x4|] eqn:E4; [|discriminate].
  destruct (py_float py (default (VInt 0) (d !! "macd_histogram"))) as [x5|] eqn:E5; [|discriminate].
  destruct (py_float py (default (VFloat lit_0_03) (d !! "bb_width"))) as [x6|] eqn:E6; [|discriminate].
  destruct (py_float py (default (VFloat lit_0_01) (d !! "atr_pct"))) as [x7|] eqn:E7; [|discriminate].
  destruct (py_float py (default (VInt 0) (d !! "galaxy_score"))) as [x8|] eqn:E8; [|discriminate].
  destruct (py_float py (default (VInt 50) (d !! "sentiment_pct"))) as [x9|] eqn:E9; [|discriminate].
  destruct (py_float py (default (VInt 500) (d !! "alt_rank"))) as [x10|] eqn:E10; [|discriminate].
  intros [= <-].
  pose proof (spec_number_Ok d "adx" x1 E1) as N1.
  pose proof (spec_number_Ok d "plus_di" x2 E2) as N2.
  pose proof (spec_number_Ok d "minus_di" x3 E3) as N3.
  pose proof (spec_number_Ok d "rsi" x4 E4) as N4.
  pose proof (spec_number_Ok d "macd_histogram" x5 E5) as N5.
  pose proof (spec_number_Ok d "bb_width" x6 E6) as N6.
  pose proof (spec_number_Ok d "atr_pct" x7 E7) as N7.
  pose proof (spec_number_Ok d "galaxy_score" x8 E8) as N8.
  pose proof (spec_number_Ok d "sentiment_pct" x9 E9) as N9.
  pose proof (spec_number_Ok d "alt_rank" x10 E10) as N10.
  split.
  - unfold spec_features, spec_di_spread, spec_alt_rank_norm, spec_text, di_spread,
      alt_rank_norm, encode_rule, spec_rule_code.
    rewrite N1, N2, N3, N4, N5, N6, N7, N8, N9, N10.
    rewrite REGIME_MAP_lookup, SIDE_MAP_lookup, RULE_MAP_lookup, coin_lookup.
    reflexivity.
  - intros k Hk. unfold numeric_keys in Hk.
    repeat (apply elem_of_cons in Hk as [->|Hk];
            [cbn [spec_default String.eqb Ascii.eqb Bool.eqb]; congruence|]).
    apply elem_of_nil in Hk. destruct Hk.
Qed.

(** Conversely the call returns as soon as every numeric field converts. *)
Lemma build_features_total (d : gmap string value) (enc : gmap string Z) :
  (∀ k, k ∈ numeric_keys → is_Ok (py_float py (default (spec_default k) (d !! k))) = true) →
  build_features py (VDict d) enc = Ok (spec_features py d enc).
Proof.
  intros H.
  destruct (build_features py (VDict d) enc) as [fs|e] eqn:E.
  - apply build_features_Ok in E as [-> _]. reflexivity.
  - exfalso. revert E. unfold build_features.
    rewrite !float_field_dict, !str_field_dict.
    pose proof (H "adx" ltac:(repeat constructor)) as H1.
    pose proof (H "plus_di" ltac:(repeat constructor)) as H2.
    pose proof (H "minus_di" ltac:(repeat constructor)) as H3.
    pose proof (H "rsi" ltac:(repeat constructor)) as H4.
    pose proof (H "macd_histogram" ltac:(repeat constructor)) as H5.
    pose proof (H "bb_width" ltac:(repeat constructor)) as H6.
    pose proof (H "atr_pct" ltac:(repeat constructor)) as H7.
    pose proof (H "galaxy_score" ltac:(repeat constructor)) as H8.
    pose proof (H "sentiment_pct" ltac:(repeat constructor)) as H9.
    pose proof (H "alt_rank" ltac:(repeat constructor)) as H10.
    clear H. cbn [spec_default String.eqb Ascii.eqb Bool.eqb] in *.
    unfold mbind, result_bind, mret, result_ret.
    destruct (py_float py (default (VInt 25) (d !! "adx"))); [|discriminate].
    destruct (py_float py (default (VInt 20) (d !! "plus_di"))); [|discriminate].
    destruct (py_float py (default (VInt 20) (d !! "minus_di"))); [|discriminate].
    destruct (py_float py (default (VInt 50) (d !! "rsi"))); [|discriminate].
    destruct (py_float py (default (VInt 0) (d !! "macd_histogram"))); [|discriminate].
    destruct (py_float py (default (VFloat lit_0_03) (d !! "bb_width"))); [|discriminate].
    destruct (py_float py (default (VFloat lit_0_01) (d !! "atr_pct"))); [|discriminate].
    destruct (py_float py (default (VInt 0) (d !! "galaxy_score"))); [|discriminate].
    destruct (py_float py (default (VInt 50) (d !! "sentiment_pct"))); [|discriminate].
    destruct (py_float py (default (VInt 500) (d !! "alt_rank"))); [|discriminate].
    discriminate.
Qed.

(** The exceptions of the conversions are ordinary ones. *)
Lemma py_float_Exception (v : value) (e : exn) :
  py_float py v = Raise e → is_Exception e = true.
Proof.
  destruct v; simpl; try (intros [= <-]; reflexivity); try discriminate.
  - destruct (F64.is_finite _); [discriminate|]. intros [= <-]. reflexivity.
  - destruct (float_of_str py s); [discriminate|]. intros [= <-]. reflexivity.
Qed.

Lemma py_int_Exception (v : value) (e : exn) :
  py_int py v = Raise e → is_Exception e = true.
Proof.
  destruct v; simpl; try (intros [= <-]; reflexivity); try discriminate.
  - destruct (F64.trunc f); [discriminate|].
    destruct f; intros [= <-]; reflexivity.
  - destruct (int_of_str py s); [discriminate|]. intros [= <-]. reflexivity.
Qed.

End FeatureLemmas.

Section FeaturePositions.
Context (py : Builtins) (d : gmap string value) (enc : gmap string Z) (fs : list num).
Hypothesis Hfs : build_features py (VDict d) enc = Ok fs.

(** The two features that depend on the side string. *)
Lemma features_side (side : string) (plus minus : spec_float) :
  str_field py (VDict d) "side" "long" = Ok side →
  float_field py (VDict d) "plus_di" (VInt 20) = Ok plus →
  float_field py (VDict d) "minus_di" (VInt 20) = Ok minus →
  fs !! 3%nat = Some (NFloat (di_spread side plus minus)) ∧
  fs !! 9%nat = Some (NInt (spec_side_code side)).
Proof.
  rewrite str_field_dict, !float_field_dict. intros [= Hs] Hp Hm.
  apply build_features_Ok in Hfs as [-> _].
  pose proof (spec_number_Ok py d "plus_di" plus Hp) as Np.
  pose proof (spec_number_Ok py d "minus_di" minus Hm) as Nm.
  unfold spec_features, spec_di_spread, di_spread, spec_text.
  rewrite Hs, Np, Nm. split; reflexivity.
Qed.

Lemma features_alt_rank (rank : spec_float) :
  float_field py (VDict d) "alt_rank" (VInt 500) = Ok rank →
  fs !! 14%nat = Some (NFloat (alt_rank_norm rank)).
Proof.
  rewrite float_field_dict. intros Hr.
  apply build_features_Ok in Hfs as [-> _].
  pose proof (spec_number_Ok py d "alt_rank" rank Hr) as Nr.
  unfold spec_features, spec_alt_rank_norm, alt_rank_norm. rewrite Nr. reflexivity.
Qed.

End FeaturePositions.

(** A numeric field of a well-formed record: the conversion succeeds and
    gives a finite, well-formed float. *)
Lemma spec_number_ok (py : Builtins) (d : gmap string value) (k : string) :
  numeric_fields_ok py d = true → k ∈ numeric_keys →
  py_float py (default (spec_default k) (d !! k)) = Ok (spec_number py d k) ∧
  F64.valid (spec_number py d k) = true ∧
  F64.is_finite (spec_number py d k) = true.
Proof.
  intros Hok Hk. unfold numeric_fields_ok in Hok.
  rewrite forallb_forall in Hok.
  specialize (Hok k (proj1 (list_elem_of_In _ _) Hk)).
  unfold numeric_field_ok in Hok. unfold spec_number.
  destruct (d !! k) as [v|] eqn:E; simpl.
  - destruct (py_float py v) as [f|]; [|discriminate Hok].
    apply andb_prop in Hok as [V F]. auto.
  - clear Hok. unfold numeric_keys in Hk.
    repeat (apply elem_of_cons in Hk as [->|Hk]; [vm_compute; auto|]).
    apply elem_of_nil in Hk. destruct Hk.
Qed.

(** Two finite data that compare equal are the same datum. *)
Lemma SFcompare_Eq_finite (s : bool) (m : positive) (e : Z) (y : spec_float) :
  SFcompare (S754_finite s m e) y = Some Eq → y = S754_finite s m e.
Proof.
  destruct y as [sy|sy| |sy my ey]; simpl.
  - destruct s; discriminate.
  - destruct s, sy; discriminate.
  - discriminate.
  - destruct s, sy; try discriminate.
    + destruct (Z.compare_spec e ey) as [->| |]; try discriminate.
      rewrite compare_cont_Eq. intros [= H]. apply CompOpp_iff in H. simpl in H.
      apply Pos.compare_eq in H. subst. reflexivity.
    + destruct (Z.compare_spec e ey) as [->| |]; try discriminate.
      rewrite compare_cont_Eq. intros [= H].
      apply Pos.compare_eq in H. subst. reflexivity.
Qed.

(** * Rows of the training set *)

Section RowLemmas.
Context (py : Builtins) (enc : gmap string Z).

Lemma build_features_Exception (row : value) (e : exn) :
  build_features py row enc = Raise e → is_Exception e = true.
Proof.
  destruct (build_features_not_dict py row enc) as [Hrec| ->];
    [|intros [= <-]; reflexivity].
  destruct row as [| | | | | |d]; try discriminate Hrec.
  unfold build_features. rewrite !float_field_dict, !str_field_dict.
  unfold mbind, result_bind, mret, result_ret.
  repeat match goal with
         | |- context [py_float py ?v] =>
             let E := fresh "E" in
             destruct (py_float py v) eqn:E;
             [|intros [= <-]; exact (py_float_Exception py _ _ E)]
         end.
  discriminate.
Qed.

(** The body of the per-row [try] returns the sample the specification
    describes, or raises an exception the [except] clause catches. *)
Lemma process_row_cases (row : value) :
  match process_row py enc row with
  | Ok r => r = spec_sample py enc row
  | Raise e => is_Exception e = true ∧ spec_sample py enc row = None
  end.
Proof.
  unfold process_row, spec_sample.
  destruct (build_features py row enc) as [features|e] eqn:E.
  - destruct row as [| | | | | |d]; try discriminate E.
    unfold mbind, result_bind, mret, result_ret, spec_label.
    destruct (d !! "won") as [w|].
    + destruct (py_int py w) as [label|e] eqn:Ei; [reflexivity|].
      split; [exact (py_int_Exception py _ _ Ei)|reflexivity].
    + destruct (d !! "pnl") as [p|]; [|reflexivity].
      unfold mbind, result_bind, mret, result_ret.
      destruct (py_float py p) as [pnl|e] eqn:Ef; [reflexivity|].
      split; [exact (py_float_Exception py _ _ Ef)|reflexivity].
  - unfold mbind, result_bind. split; [exact (build_features_Exception _ _ E)|].
    destruct row; reflexivity.
Qed.

Lemma len_cons {A} (x : A) (l : list A) : len (x :: l) = len l + 1.
Proof. unfold len. simpl length. lia. Qed.

(** The loop never aborts: it keeps the samples in order and counts every
    other row as skipped. *)
Lemma encode_rows_spec (rows : list value) (X : list (list num)) (y : list Z) (skipped : Z) :
  encode_rows py enc rows X y skipped
  = Ok (X ++ (omap (spec_sample py enc) rows).*1,
        y ++ (omap (spec_sample py enc) rows).*2,
        skipped + (len rows - len (omap (spec_sample py enc) rows))).
Proof.
  revert X y skipped. induction rows as [|row rest IH]; intros X y skipped.
  - simpl. rewrite !app_nil_r. do 2 f_equal. unfold len. simpl. lia.
  - pose proof (process_row_cases row) as Hrow.
    cbn [encode_rows omap list_omap]. rewrite len_cons.
    destruct (process_row py enc row) as [[[features label]|]|e].
    + rewrite <- Hrow. rewrite IH. cbn [fmap list_fmap fst snd].
      rewrite len_cons, <- !app_assoc. simpl app. do 2 f_equal. lia.
    + rewrite <- Hrow. rewrite IH. do 2 f_equal. lia.
    + destruct Hrow as [-> ->]. rewrite IH. do 2 f_equal. lia.
Qed.

End RowLemmas.

(** * Reading the training files *)

Section ReadLemmas.
Context (py : Builtins).

(** Reading leaves the world as it is and fails with an ordinary
    exception. *)
Lemma read_text_cases (path : string) (w : world) :
  ∃ r, read_text path w = (r, w) ∧
       match r with Ok _ => True | Raise e => is_Exception e = true end.
Proof.
  unfold read_text.
  destruct (fs w !! path) as [[c|p| |]|]; eexists; (split; [reflexivity|]); simpl; auto.
Qed.

Lemma json_exn_Exception (doc : string) : is_Exception (json_exn py doc) = true.
Proof. unfold json_exn. destruct (json_error py doc); reflexivity. Qed.

Lemma decode_lines_Exception (lines : list string) (e : exn) :
  decode_lines py lines = Raise e → is_Exception e = true.
Proof.
  induction lines as [|line rest IH]; [discriminate|].
  cbn [decode_lines]. cbv zeta.
  destruct (String.eqb (strip line) ""); [exact IH|].
  destruct (json_loads py (strip line)) as [row|].
  - unfold mbind, result_bind. destruct (decode_lines py rest); [discriminate|].
    intros [= <-]. apply IH. reflexivity.
  - destruct (json_error py (strip line)) eqn:Ej; [exact IH| |];
      intros [= <-]; apply json_exn_Exception.
Qed.

Lemma load_jsonl_cases (path : string) (w : world) :
  ∃ r, load_jsonl py path w = (r, w) ∧
       match r with Ok _ => True | Raise e => is_Exception e = true end.
Proof.
  unfold load_jsonl, mbind, M_bind.
  destruct (read_text_cases path w) as (r & -> & Hr).
  destruct r as [content|e]; [|eexists; split; [reflexivity|exact Hr]].
  unfold lift. eexists. split; [reflexivity|].
  destruct (decode_lines py (splitlines content)) as [rows|e] eqn:E; [exact I|].
  exact (decode_lines_Exception _ _ E).
Qed.

Lemma load_rows_cases (data_path : string) (live_path : option string) (w : world) :
  ∃ r, load_rows py data_path live_path w = (r, w) ∧
       match r with Ok _ => True | Raise e => is_Exception e = true end.
Proof.
  unfold load_rows, mbind, M_bind.
  destruct (load_jsonl_cases data_path w) as (r & -> & Hr).
  destruct r as [rows|e]; [|eexists; split; [reflexivity|exact Hr]].
  destruct live_path as [p|]; [|eexists; split; [reflexivity|exact I]].
  unfold path_exists.
  destruct (negb (String.eqb p "") && bool_decide (is_Some (fs w !! p)));
    [|eexists; split; [reflexivity|exact I]].
  destruct (load_jsonl_cases p w) as (r & -> & Hr').
  destruct r; eexists; (split; [reflexivity|]); auto.
Qed.

(** The coin encoder is built for every list of records; a row that is
    not a record makes the construction raise [AttributeError]. *)
Lemma coin_names_cases (rows : list value) :
  match mapM (λ r, str_field py r "coin" "BTC") rows with
  | Ok _ => forallb is_record rows = true
  | Raise e => e = AttributeError ∧ forallb is_record rows = false
  end.
Proof.
  induction rows as [|row rest IH]; [reflexivity|].
  cbn [mapM forallb]. unfold mbind at 1, result_bind.
  destruct row; try (split; reflexivity).
  rewrite str_field_dict. unfold mbind, result_bind.
  fold (mapM (λ r, str_field py r "coin" "BTC") rest).
  destruct (mapM (λ r, str_field py r "coin" "BTC") rest); simpl; exact IH.
Qed.

Lemma build_coin_encoder_cases (rows : list value) :
  match build_coin_encoder py rows with
  | Ok _ => forallb is_record rows = true
  | Raise e => e = AttributeError ∧ forallb is_record rows = false
  end.
Proof.
  unfold build_coin_encoder, mbind, result_bind.
  pose proof (coin_names_cases rows) as H.
  destruct (mapM (λ r, str_field py r "coin" "BTC") rows); exact H.
Qed.

End ReadLemmas.

Lemma len_fmap {A B} (f : A → B) (l : list A) : len (f <$> l) = len l.
Proof. unfold len. rewrite length_fmap. reflexivity. Qed.

(** * One equation for [train] *)

Section TrainLemmas.
Context (py : Builtins) (lib : Libs).

Lemma train_missing_dependency (data_path : string) (live_path : option string)
    (w : world) (msg : string) :
  train_imports lib = Some (ImportError msg) →
  train py lib data_path live_path w
  = (Raise (SystemExit 1),
     {| fs := fs w;
        stdout := stdout w ++ [[("error", VStr ("Missing dependency: " +:+ msg
                                                 +:+ ". Run ml/setup.sh first."))]] |}).
Proof. intros H. unfold train. rewrite H. reflexivity. Qed.

Lemma train_import_raises (data_path : string) (live_path : option string)
    (w : world) (e : exn) :
  train_imports lib = Some e → (∀ msg, e ≠ ImportError msg) →
  train py lib data_path live_path w = (Raise e, w).
Proof.
  intros H Hne. unfold train. rewrite H.
  destruct e; try reflexivity. destruct (Hne msg eq_refl).
Qed.

Lemma train_load_failed (data_path : string) (live_path : option string)
    (w : world) (e : exn) :
  train_imports lib = None →
  load_rows py data_path live_path w = (Raise e, w) →
  train py lib data_path live_path w = (Raise e, w).
Proof.
  intros Hi Hl. unfold train. rewrite Hi. unfold mbind, M_bind. rewrite Hl. reflexivity.
Qed.

(** Once the rows are loaded the run is decided by the two counts, by
    the two library calls and by the writes. *)
Lemma train_loaded (data_path : string) (live_path : option string)
    (w : world) (rows : list value) :
  train_imports lib = None →
  load_rows py data_path live_path w = (Ok rows, w) →
  train py lib data_path live_path w =
  if len rows <? 10 then
    (Raise (SystemExit 1),
     {| fs := fs w; stdout := stdout w ++ [too_few_samples (len rows)] |})
  else
    match build_coin_encoder py rows with
    | Raise e => (Raise e, w)
    | Ok enc =>
        let kept : list (list num * Z) := omap (spec_sample py enc) rows in
        let skipped := len rows - len kept in
        if len kept <? 10 then
          (Raise (SystemExit 1),
           {| fs := fs w; stdout := stdout w ++ [too_few_valid (len kept) skipped] |})
        else
          match cross_val_score lib kept.*1 kept.*2 (Z.min 5 (Z.max 2 (len kept / 10))) with
          | None => (Raise (LibraryError "cross_val_score"), w)
          | Some cv_scores =>
              match fit lib kept.*1 kept.*2 with
              | None => (Raise (LibraryError "fit"), w)
              | Some clf =>
                  match save_artifacts py clf enc
                          (training_meta lib (len kept) (cv_mean lib cv_scores)
                             cv_scores skipped) w with
                  | (Ok _, w') =>
                      (Ok tt,
                       {| fs := fs w';
                          stdout := stdout w' ++ [training_report (len kept)
                                                    (cv_mean lib cv_scores) cv_scores] |})
                  | (Raise e, w') => (Raise e, w')
                  end
              end
          end
    end.
Proof.
  intros Hi Hl. unfold train. rewrite Hi. unfold mbind at 1, M_bind at 1. rewrite Hl.
  destruct (len rows <? 10); [reflexivity|].
  unfold mbind at 1, M_bind at 1, lift at 1.
  destruct (build_coin_encoder py rows) as [enc|e]; [|reflexivity].
  unfold mbind at 1, M_bind at 1, lift at 1.
  rewrite encode_rows_spec. cbn [app]. rewrite Z.add_0_l, len_fmap.
  cbv zeta.
  destruct (len (omap (spec_sample py enc) rows) <? 10); [reflexivity|].
  unfold mbind at 1, M_bind at 1, call at 1, lift at 1.
  destruct (cross_val_score lib _ _ _) as [cv_scores|]; [|reflexivity].
  unfold mbind at 1, M_bind at 1, call at 1, lift at 1.
  destruct (fit lib _ _) as [clf|]; [|reflexivity].
  unfold mbind at 1, M_bind at 1.
  destruct (save_artifacts py clf enc _ w) as [[[]|e] w']; reflexivity.
Qed.

End TrainLemmas.

Lemma len_omap_le {A B} (f : A → option B) (l : list A) : len (omap f l) <= len l.
Proof.
  induction l as [|x l IH]; [reflexivity|].
  cbn [omap list_omap]. destruct (f x); rewrite ?len_cons; lia.
Qed.

(** An exception that reaches the top ends the run with status 1. *)
Lemma run_uncaught (m : M unit) (w w' : world) (e : exn) :
  m w = (Raise e, w') → is_Exception e = true →
  run m w = {| exit_status := 1; uncaught := Some e; printed := stdout w'; files := fs w' |}.
Proof. intros H He. unfold run. rewrite H. destruct e; try reflexivity. discriminate He. Qed.

Lemma run_exit (m : M unit) (w w' : world) (c : Z) :
  m w = (Raise (SystemExit c), w') →
  run m w = {| exit_status := c; uncaught := None; printed := stdout w'; files := fs w' |}.
Proof. intros H. unfold run. rewrite H. reflexivity. Qed.

Lemma run_returns (m : M unit) (w w' : world) (u : unit) :
  m w = (Ok u, w') →
  run m w = {| exit_status := 0; uncaught := None; printed := stdout w'; files := fs w' |}.
Proof. intros H. unfold run. rewrite H. reflexivity. Qed.

(** Every vector [build_features] returns has fifteen entries. *)
Lemma build_features_length (py : Builtins) (row : value) (enc : gmap string Z)
    (fs : list num) :
  build_features py row enc = Ok fs → length fs = 15%nat.
Proof.
  intros Hfs.
  destruct (build_features_not_dict py row enc) as [Hrec|E]; [|congruence].
  destruct row as [| | | | | |d]; try discriminate Hrec.
  apply build_features_Ok in Hfs as [-> _]. reflexivity.
Qed.

Lemma spec_sample_length (py : Builtins) (enc : gmap string Z) (row : value)
    (fs : list num) (label : Z) :
  spec_sample py enc row = Some (fs, label) → length fs = 15%nat.
Proof.
  unfold spec_sample. destruct row as [| | | | | |d]; try discriminate.
  destruct (build_features py (VDict d) enc) as [fs'|] eqn:E; [|discriminate].
  destruct (spec_label py d) as [[l|]|]; try discriminate.
  intros [= <- <-]. exact (build_features_length _ _ _ _ E).
Qed.

Lemma is_artifact_false (p : string) :
  is_artifact p = false → p ≠ model_path ∧ p ≠ encoders_path ∧ p ≠ meta_path.
Proof.
  unfold is_artifact. intros H.
  apply orb_false_elim in H as [H H3]. apply orb_false_elim in H as [H1 H2].
  apply String.eqb_neq in H1, H2, H3. auto.
Qed.

(** * The writes *)

Section SaveLemmas.
Context (py : Builtins) (clf : classifier) (enc : gmap string Z) (meta : gmap string value).

Lemma paths_distinct :
  model_path ≠ encoders_path ∧ model_path ≠ meta_path ∧ encoders_path ≠ meta_path ∧
  MODEL_DIR ≠ model_path ∧ MODEL_DIR ≠ encoders_path ∧ MODEL_DIR ≠ meta_path.
Proof. repeat split; discriminate. Qed.

(** When the directory can be made and no artifact path is a directory,
    the four writes go through. *)
Lemma save_artifacts_ok (w : world) :
  can_write w = true →
  save_artifacts py clf enc meta w
  = (Ok tt,
     {| fs := <[meta_path := Text (json_dumps py (VDict meta))]>
                (<[encoders_path := Pickled (PEncoders {["coin_encoder" := enc]})]>
                   (<[model_path := Pickled (PClassifier clf)]>
                      (<[MODEL_DIR := Directory]> (fs w))));
        stdout := stdout w |}).
Proof.
  destruct paths_distinct as (H1 & H2 & H3 & H4 & H5 & H6).
  unfold can_write. cbn [forallb]. rewrite !andb_true_iff.
  intros (Hd & Hm & He & Hj & _).
  assert (Hdir : ∃ w1, mkdir MODEL_DIR w = (Ok tt, w1) ∧
                       fs w1 = <[MODEL_DIR := Directory]> (fs w) ∧ stdout w1 = stdout w).
  { unfold mkdir. destruct (fs w !! MODEL_DIR) as [[c|p| |]|] eqn:E; try discriminate Hd.
    - exists w. split; [reflexivity|]. split; [|reflexivity].
      symmetry. apply insert_id. exact E.
    - eexists. split; [reflexivity|]. split; reflexivity. }
  destruct Hdir as (w1 & Hmk & Hfs1 & Hout1).
  unfold save_artifacts. unfold mbind at 1, M_bind at 1. rewrite Hmk.
  unfold mbind at 1, M_bind at 1, write_file at 1. rewrite Hfs1.
  rewrite lookup_insert_ne by exact H4.
  destruct (fs w !! model_path) as [[c|p| |]|] eqn:Em; try discriminate Hm;
    (unfold mbind at 1, M_bind at 1, write_file at 1; cbn [fs];
     rewrite !lookup_insert_ne by congruence;
     destruct (fs w !! encoders_path) as [[c'|p'| |]|] eqn:Ee; try discriminate He;
     (unfold write_file; cbn [fs];
      rewrite !lookup_insert_ne by congruence;
      destruct (fs w !! meta_path) as [[c''|p''| |]|] eqn:Ej; try discriminate Hj;
      cbn [stdout]; rewrite Hout1; reflexivity)).
Qed.

(** Whatever the files are, the writes leave the standard output and
    every path but the directory and the three artifacts as they were,
    and they fail, with an [OSError], exactly when [can_write] says no. *)
Lemma save_artifacts_cases (w : world) :
  ∃ r w', save_artifacts py clf enc meta w = (r, w') ∧
    stdout w' = stdout w ∧
    (∀ path, is_artifact path = false → path ≠ MODEL_DIR →
             fs w' !! path = fs w !! path) ∧
    match r with
    | Ok _ => can_write w = true
    | Raise e => can_write w = false ∧ ∃ path, e = OSError path
    end.
Proof.
  destruct (can_write w) eqn:Hc.
  - rewrite (save_artifacts_ok w Hc). eexists _, _. split; [reflexivity|].
    split; [reflexivity|]. split; [|reflexivity].
    intros path Hp Hd. apply is_artifact_false in Hp as (P1 & P2 & P3).
    cbn [fs]. rewrite !lookup_insert_ne by congruence. reflexivity.
  - destruct paths_distinct as (H1 & H2 & H3 & H4 & H5 & H6).
    revert Hc. unfold can_write. cbn [forallb]. unfold save_artifacts.
    unfold mbind at 1, M_bind at 1, mkdir.
    destruct (fs w !! MODEL_DIR) as [[c|p| |]|] eqn:Ed; cbn [andb];
      try (intros _; eexists _, _; split; [reflexivity|];
           split; [reflexivity|]; split; [reflexivity|]; split; eauto).
    + intros Hc.
      unfold mbind at 1, M_bind at 1, write_file at 1.
      destruct (fs w !! model_path) as [[c|p| |]|] eqn:Em;
        try (eexists _, _; split; [reflexivity|]; split; [reflexivity|];
             split; [reflexivity|]; split; eauto);
        (unfold mbind at 1, M_bind at 1, write_file at 1; cbn [fs];
         rewrite !lookup_insert_ne by congruence;
         destruct (fs w !! encoders_path) as [[c'|p'| |]|] eqn:Ee;
         try (eexists _, _; split; [reflexivity|]; split; [reflexivity|];
              split; [|split; eauto];
              intros path Hp Hd; apply is_artifact_false in Hp as (P1 & P2 & P3);
              cbn [fs]; rewrite !lookup_insert_ne by congruence; reflexivity);
         (unfold write_file; cbn [fs];
          rewrite !lookup_insert_ne by congruence;
          destruct (fs w !! meta_path) as [[c''|p''| |]|] eqn:Ej;
          try discriminate Hc;
          eexists _, _; split; [reflexivity|]; split; [reflexivity|];
          split; [|split; eauto];
          intros path Hp Hd; apply is_artifact_false in Hp as (P1 & P2 & P3);
          cbn [fs]; rewrite !lookup_insert_ne by congruence; reflexivity)).
    + intros Hc.
      unfold mbind at 1, M_bind at 1, write_file at 1. cbn [fs].
      rewrite lookup_insert_ne by exact H4.
      destruct (fs w !! model_path) as [[c|p| |]|] eqn:Em;
        try (eexists _, _; split; [reflexivity|]; split; [reflexivity|];
             split; [|split; eauto];
             intros path Hp Hd; apply is_artifact_false in Hp as (P1 & P2 & P3);
             cbn [fs]; rewrite !lookup_insert_ne by congruence; reflexivity);
        (unfold mbind at 1, M_bind at 1, write_file at 1; cbn [fs];
         rewrite !lookup_insert_ne by congruence;
         destruct (fs w !! encoders_path) as [[c'|p'| |]|] eqn:Ee;
         try (eexists _, _; split; [reflexivity|]; split; [reflexivity|];
              split; [|split; eauto];
              intros path Hp Hd; apply is_artifact_false in Hp as (P1 & P2 & P3);
              cbn [fs]; rewrite !lookup_insert_ne by congruence; reflexivity);
         (unfold write_file; cbn [fs];
          rewrite !lookup_insert_ne by congruence;
          destruct (fs w !! meta_path) as [[c''|p''| |]|] eqn:Ej;
          try discriminate Hc;
          eexists _, _; split; [reflexivity|]; split; [reflexivity|];
          split; [|split; eauto];
          intros path Hp Hd; apply is_artifact_false in Hp as (P1 & P2 & P3);
          cbn [fs]; rewrite !lookup_insert_ne by congruence; reflexivity)).
Qed.

End SaveLemmas.

(** * Scoring *)

Section ScoreLemmas.
Context (py : Builtins) (lib : Libs).

Lemma joblib_load_cases (path : string) (w : world) :
  ∃ r, joblib_load path w = (r, w) ∧
       match r with
       | Ok p => fs w !! path = Some (Pickled p)
       | Raise e => is_Exception e = true
       end.
Proof.
  unfold joblib_load.
  destruct (fs w !! path) as [[c|p| |]|]; eexists; (split; [reflexivity|]); reflexivity.
Qed.

(** Loading the artifacts leaves the world as it is; it either raises an
    ordinary exception or returns what the three files hold. *)
Lemma load_artifacts_cases (w : world) :
  ∃ r, load_artifacts py w = (r, w) ∧
       match r with
       | Ok (clf, enc, meta) =>
           fs w !! model_path = Some (Pickled clf) ∧
           (∃ e, fs w !! encoders_path = Some (Pickled (PEncoders e)) ∧
                 e !! "coin_encoder" = Some enc) ∧
           match fs w !! meta_path with
           | None => meta = VDict ∅
           | Some (Text doc) => json_loads py doc = Some meta
           | Some _ => False
           end
       | Raise e => is_Exception e = true
       end.
Proof.
  unfold load_artifacts. unfold mbind at 1, M_bind at 1.
  destruct (joblib_load_cases model_path w) as (r1 & -> & H1).
  destruct r1 as [clf|e]; [|eexists; split; [reflexivity|exact H1]].
  unfold mbind at 1, M_bind at 1.
  destruct (joblib_load_cases encoders_path w) as (r2 & -> & H2).
  destruct r2 as [encoders|e]; [|eexists; split; [reflexivity|exact H2]].
  unfold mbind at 1, M_bind at 1, lift at 1.
  destruct encoders as [c|e]; [eexists; split; [reflexivity|reflexivity]|].
  unfold get_coin_encoder.
  destruct (e !! "coin_encoder") as [enc|] eqn:Ee;
    [|eexists; split; [reflexivity|reflexivity]].
  unfold mbind at 1, M_bind at 1, path_exists at 1.
  destruct (fs w !! meta_path) as [f|] eqn:Em.
  - rewrite bool_decide_eq_true_2 by (eexists; reflexivity).
    unfold json_load, read_text, lift, loads, mbind, M_bind. cbv beta iota. rewrite Em.
    destruct f as [doc|p| |]; try (eexists; split; [reflexivity|reflexivity]).
    destruct (json_loads py doc) as [meta|] eqn:Ej;
      [|eexists; split; [reflexivity|apply json_exn_Exception]].
    eexists; split; [reflexivity|]. cbv beta iota. eauto.
  - rewrite bool_decide_eq_false_2 by (intros [x Hx]; discriminate Hx).
    eexists; split; [reflexivity|]. cbv beta iota. eauto.
Qed.

Lemma score_row_Exception (clf : pickle) (enc : gmap string Z) (meta : value)
    (input_str : string) (e : exn) :
  score_row py clf enc meta input_str = Raise e → is_Exception e = true.
Proof.
  unfold score_row, mbind, result_bind, loads.
  destruct (json_loads py input_str) as [row|];
    [|intros [= <-]; apply json_exn_Exception].
  destruct (build_features py row enc) as [features|e'] eqn:Ef;
    [|intros [= <-]; exact (build_features_Exception py enc row e' Ef)].
  unfold first_proba, get_classes.
  destruct clf as [c|encs]; [|intros [= <-]; reflexivity].
  destruct (predict_proba c [features]) as [[|proba rest]|];
    try (intros [= <-]; reflexivity).
  unfold score_value.
  destruct (0 <=? win_index (classes_ c)).
  - destruct (proba !! Z.to_nat (win_index (classes_ c)));
      [|intros [= <-]; reflexivity].
    destruct meta; try (intros [= <-]; reflexivity); discriminate.
  - destruct meta; try (intros [= <-]; reflexivity); discriminate.
Qed.





(** [score] once the artifacts are loaded. *)
Lemma score_loaded (stdin : string) (w : world) (clf : pickle) (enc : gmap string Z)
    (meta : value) :
  score_imports lib = None →
  load_artifacts py w = (Ok (clf, enc, meta), w) →
  score py lib stdin w
  = (Ok tt,
     {| fs := fs w;
        stdout := stdout w ++
          [if String.eqb (strip stdin) "" then null_score "Empty stdin"
           else match score_row py clf enc meta (strip stdin) with
                | Ok obj => obj
                | Raise e => null_score (exn_str py e)
                end] |}).
Proof.
  intros Hi Hl. unfold score. rewrite Hi.
  destruct (load_artifacts_cases w) as (r & Hr & Hfiles). rewrite Hl in Hr.
  injection Hr as <-. destruct Hfiles as (Hm & _).
  unfold mbind at 1, M_bind at 1, path_exists at 1.
  rewrite bool_decide_eq_true_2 by (eexists; exact Hm). cbn [negb].
  unfold try_except. unfold mbind at 1, M_bind at 1. rewrite Hl.
  destruct (String.eqb (strip stdin) ""); [reflexivity|].
  unfold mbind, M_bind, lift.
  destruct (score_row py clf enc meta (strip stdin)) as [obj|e] eqn:Er; [reflexivity|].
  rewrite (score_row_Exception _ _ _ _ _ Er). reflexivity.
Qed.


(** Rounding leaves the neutral score as it is. *)
Lemma round_half : F64.round_digits lit_0_5 4 = lit_0_5.
Proof. vm_compute. reflexivity. Qed.

(** The position [index_of] returns is the first one that holds the
    value. *)
Lemma index_of_Some (z : Z) (l : list Z) (i : nat) :
  index_of z l = Some i →
  l !! i = Some z ∧ ∀ j, (j < i)%nat → l !! j ≠ Some z.
Proof.
  revert i. induction l as [|x l IH]; intros i; [discriminate|].
  cbn [index_of]. destruct (x =? z) eqn:E.
  - intros [= <-]. apply Z.eqb_eq in E. subst x. split; [reflexivity|]. lia.
  - destruct (index_of z l) as [k|]; [|discriminate]. intros [= <-].
    destruct (IH k eq_refl) as [Hk Hlt]. split; [exact Hk|].
    intros [|j] Hj; simpl.
    + intros [= ->]. rewrite Z.eqb_refl in E. discriminate.
    + apply Hlt. lia.
Qed.

Lemma index_of_None (z : Z) (l : list Z) :
  index_of z l = None ↔ z ∉ l.
Proof.
  induction l as [|x l IH]; cbn [index_of].
  - split; [intros _; apply not_elem_of_nil|reflexivity].
  - destruct (x =? z) eqn:E.
    + apply Z.eqb_eq in E. subst x. split; [discriminate|].
      intros H. exfalso. apply H. left.
    + apply Z.eqb_neq in E. rewrite not_elem_of_cons.
      destruct (index_of z l); simpl.
      * split; [discriminate|]. intros [_ H]. apply IH in H. discriminate.
      * split; [|reflexivity]. intros _. split; [congruence|]. apply IH. reflexivity.
Qed.

End ScoreLemmas.

(** White space only strips to nothing. *)
Lemma lstrip_blank (s : string) :
  forallb is_space (list_ascii_of_string s) = true → lstrip s = "".
Proof.
  unfold lstrip. induction s as [|a s IH]; [reflexivity|].
  cbn [list_ascii_of_string forallb strip_head]. intros H.
  apply andb_prop in H as [-> H]. exact (IH H).
Qed.

Lemma strip_blank (s : string) :
  forallb is_space (list_ascii_of_string s) = true → strip s = "".
Proof. intros H. unfold strip. rewrite (lstrip_blank s H). reflexivity. Qed.

Section ScoreRowLemmas.
Context (py : Builtins).

(** What [score_row] returns holds the stored sample count. *)
Lemma score_row_samples (clf : pickle) (enc : gmap string Z) (meta : gmap string value)
    (input_str : string) (obj : jobj) :
  score_row py clf enc (VDict meta) input_str = Ok obj →
  ∃ s, obj = [("score", VFloat s);
              ("modelSamples", default (VInt 0) (meta !! "sampleCount"))].
Proof.
  unfold score_row, mbind, result_bind, mret, result_ret, dict_get.
  repeat match goal with
         | |- context [match ?x with Ok _ => _ | Raise _ => _ end] =>
             destruct x; [|discriminate]
         end.
  intros [= <-]. eauto.
Qed.

(** A decoded input that is not an object cannot be encoded. *)
Lemma score_row_not_record (clf : pickle) (enc : gmap string Z) (meta : value)
    (input_str : string) (row : value) :
  json_loads py input_str = Some row → is_record row = false →
  score_row py clf enc meta input_str = Raise AttributeError.
Proof.
  intros Hj Hrow. unfold score_row, loads. rewrite Hj.
  unfold mbind at 1, result_bind at 1.
  destruct (build_features_not_dict py row enc) as [H| ->]; [congruence|reflexivity].
Qed.

End ScoreRowLemmas.

Lemma train_imports_score (lib : Libs) :
  train_imports lib = None → score_imports lib = None.
Proof.
  unfold train_imports, score_imports.
  destruct (import_sklearn lib); [discriminate|].
  destruct (import_numpy lib); [discriminate|].
  destruct (import_joblib lib); [discriminate|reflexivity].
Qed.

(** The artifacts load when the three files hold what [train] writes. *)
Lemma load_artifacts_ok (py : Builtins) (w : world) (clf : pickle)
    (e : gmap string (gmap string Z)) (enc : gmap string Z) (doc : string) (meta : value) :
  fs w !! model_path = Some (Pickled clf) →
  fs w !! encoders_path = Some (Pickled (PEncoders e)) →
  e !! "coin_encoder" = Some enc →
  fs w !! meta_path = Some (Text doc) →
  json_loads py doc = Some meta →
  load_artifacts py w = (Ok (clf, enc, meta), w).
Proof.
  intros H1 H2 H3 H4 H5. unfold load_artifacts.
  unfold mbind at 1, M_bind at 1, joblib_load at 1. rewrite H1.
  unfold mbind at 1, M_bind at 1, joblib_load at 1. rewrite H2.
  unfold mbind at 1, M_bind at 1, lift at 1, get_coin_encoder. rewrite H3.
  unfold mbind at 1, M_bind at 1, path_exists.
  rewrite bool_decide_eq_true_2 by (rewrite H4; eauto).
  unfold json_load, mbind, M_bind, read_text, lift, loads. rewrite H4, H5. reflexivity.
Qed.



(** * Rounding to decimal places *)

Lemma div_half_even_spec (n d : Z) :
  0 <= n → 0 < d →
  0 <= F64.div_half_even n d ∧ spec_nearest_even n d (F64.div_half_even n d).
Proof.
  intros Hn Hd. unfold F64.div_half_even, spec_nearest_even.
  pose proof (Z.div_mod n d ltac:(lia)) as Hdm.
  pose proof (Z.mod_pos_bound n d Hd) as Hr.
  pose proof (Z.div_pos n d Hn Hd) as Hq.
  set (q := n / d) in *. set (r := n mod d) in *.
  assert (E1 : n - q * d = r) by lia.
  assert (E2 : n - (q + 1) * d = r - d) by lia.
  destruct (Z.compare_spec (2 * r) d) as [Heq|Hlt|Hgt].
  - destruct (Z.even q) eqn:Ev.
    + split; [lia|]. rewrite E1. split; [lia|]. intros _. exact Ev.
    + split; [lia|]. rewrite E2. split; [lia|]. intros _.
      rewrite Z.even_add, Ev. reflexivity.
  - split; [lia|]. rewrite E1. split; lia.
  - split; [lia|]. rewrite E2. split; lia.
Qed.

(** [round_digits] gives the rounding the specification describes. *)
Lemma round_digits_spec (x : spec_float) (nd : Z) :
  spec_rounded x nd (F64.round_digits x nd).
Proof.
  destruct x as [s|s| |s m e]; try reflexivity.
  unfold spec_rounded, F64.round_digits.
  destruct (0 <=? e) eqn:He; [reflexivity|].
  apply Z.leb_gt in He.
  assert (Hd : 0 < 2 ^ (- e)) by (apply Z.pow_pos_nonneg; lia).
  assert (Hn : 0 <= Z.pos m * 10 ^ nd).
  { apply Z.mul_nonneg_nonneg; [lia|].
    destruct (Z.le_gt_cases 0 nd); [apply Z.pow_nonneg; lia|].
    rewrite Z.pow_neg_r by lia. lia. }
  destruct (div_half_even_spec _ _ Hn Hd) as [Hk Hs].
  exists (F64.div_half_even (Z.pos m * 10 ^ nd) (2 ^ (- e))).
  split; [exact Hk|]. split; [exact Hs|]. reflexivity.
Qed.


(** * The coin encoder *)

Lemma ascii_compare_Lt_trans (a b c : ascii) :
  Ascii.compare a b = Lt → Ascii.compare b c = Lt → Ascii.compare a c = Lt.
Proof.
  unfold Ascii.compare. rewrite !N.compare_lt_iff. apply N.lt_trans.
Qed.

Lemma string_compare_refl (s : string) : String.compare s s = Eq.
Proof.
  induction s as [|a s IH]; [reflexivity|]. simpl.
  unfold Ascii.compare. rewrite N.compare_refl. exact IH.
Qed.

Lemma string_compare_Lt_trans (a b c : string) :
  String.compare a b = Lt → String.compare b c = Lt → String.compare a c = Lt.
Proof.
  revert b c. induction a as [|x a IH]; intros [|y b] [|z c]; simpl;
    try discriminate; auto.
  destruct (Ascii.compare x y) eqn:Exy; try discriminate;
    destruct (Ascii.compare y z) eqn:Eyz; try discriminate; intros H1 H2.
  - apply Ascii.compare_eq_iff in Exy, Eyz. subst.
    replace (Ascii.compare z z) with Eq
      by (symmetry; unfold Ascii.compare; apply N.compare_refl).
    exact (IH _ _ H1 H2).
  - apply Ascii.compare_eq_iff in Exy. subst. rewrite Eyz. reflexivity.
  - apply Ascii.compare_eq_iff in Eyz. subst. rewrite Exy. reflexivity.
  - rewrite (ascii_compare_Lt_trans _ _ _ Exy Eyz). reflexivity.
Qed.

Lemma string_compare_Gt_Lt (a b : string) :
  String.compare a b = Gt → String.compare b a = Lt.
Proof. intros H. rewrite String.compare_antisym, H. reflexivity. Qed.

Lemma elem_of_sorted_insert (c x : string) (l : list string) :
  x ∈ sorted_insert c l ↔ x = c ∨ x ∈ l.
Proof.
  induction l as [|y l IH]; cbn [sorted_insert].
  - rewrite list_elem_of_singleton. rewrite elem_of_nil. tauto.
  - destruct (String.compare c y) eqn:E.
    + apply String.compare_eq_iff in E. subst y. rewrite !elem_of_cons. tauto.
    + rewrite !elem_of_cons. tauto.
    + rewrite !elem_of_cons, IH. tauto.
Qed.

Lemma sorted_insert_sorted (c : string) (l : list string) :
  StronglySorted string_lt l → StronglySorted string_lt (sorted_insert c l).
Proof.
  induction 1 as [|y l Hs IH Hy]; cbn [sorted_insert].
  - repeat constructor.
  - destruct (String.compare c y) eqn:E.
    + constructor; assumption.
    + constructor; [constructor; assumption|]. constructor; [exact E|].
      eapply Forall_impl; [exact Hy|]. intros z Hz.
      exact (string_compare_Lt_trans _ _ _ E Hz).
    + constructor; [exact IH|]. apply Forall_forall. intros z Hz.
      apply elem_of_sorted_insert in Hz as [->|Hz].
      * exact (string_compare_Gt_Lt _ _ E).
      * rewrite Forall_forall in Hy. exact (Hy z Hz).
Qed.

Lemma sorted_set_sorted (l : list string) : StronglySorted string_lt (sorted_set l).
Proof.
  induction l as [|c l IH]; [constructor|]. apply sorted_insert_sorted, IH.
Qed.

Lemma elem_of_sorted_set (x : string) (l : list string) : x ∈ sorted_set l ↔ x ∈ l.
Proof.
  induction l as [|c l IH]; [reflexivity|].
  cbn [sorted_set foldr]. rewrite elem_of_sorted_insert, elem_of_cons.
  fold (sorted_set l). rewrite IH. reflexivity.
Qed.

Lemma sorted_NoDup (l : list string) : StronglySorted string_lt l → NoDup l.
Proof.
  induction 1 as [|y l Hs IH Hy]; constructor; [|exact IH].
  intros Hin. rewrite Forall_forall in Hy. specialize (Hy y Hin).
  unfold string_lt in Hy. rewrite string_compare_refl in Hy. discriminate.
Qed.

(** Numbering a list without repetition: each name is sent to its
    position. *)
Lemma lookup_numbered (coins : list string) (c : string) (i : Z) :
  NoDup coins →
  (list_to_map (zip coins (Z.of_nat <$> seq 0 (length coins))) : gmap string Z) !! c = Some i
  ↔ 0 <= i ∧ coins !! Z.to_nat i = Some c.
Proof.
  intros Hnd.
  rewrite <- elem_of_list_to_map
    by (rewrite fst_zip; [exact Hnd|rewrite length_fmap, length_seq; reflexivity]).
  rewrite list_elem_of_lookup. unfold zip. split.
  - intros (j & Hj). apply lookup_zip_with_Some in Hj as (x & y & [= -> ->] & Hx & Hy).
    apply list_lookup_fmap_Some in Hy as (k & -> & Hk).
    apply lookup_seq in Hk as [-> _]. simpl. rewrite Nat2Z.id. split; [lia|exact Hx].
  - intros [Hi Hc]. exists (Z.to_nat i). apply lookup_zip_with_Some.
    exists c, i. split; [reflexivity|]. split; [exact Hc|].
    apply list_lookup_fmap_Some. exists (Z.to_nat i). split; [lia|].
    apply lookup_seq. split; [reflexivity|]. apply lookup_lt_Some in Hc. exact Hc.
Qed.

Lemma size_numbered (coins : list string) :
  NoDup coins →
  size (list_to_map (zip coins (Z.of_nat <$> seq 0 (length coins))) : gmap string Z)
  = length coins.
Proof.
  intros Hnd.
  rewrite map_size_list_to_map
    by (rewrite fst_zip; [exact Hnd|rewrite length_fmap, length_seq; reflexivity]).
  apply length_zip_with_l_eq. rewrite length_fmap, length_seq. reflexivity.
Qed.

(** The names [build_coin_encoder] collects. *)
Lemma coin_names_spec (py : Builtins) (rows : list value) (names : list string) :
  mapM (λ r, str_field py r "coin" "BTC") rows = Ok names →
  ∀ c, c ∈ names ↔
       ∃ d, VDict d ∈ rows ∧ c = py_str py (default (VStr "BTC") (d !! "coin")).
Proof.
  revert names. induction rows as [|row rows IH]; intros names.
  - intros [= <-] c. split; [intros H; apply elem_of_nil in H; destruct H|].
    intros (d & H & _). apply elem_of_nil in H. destruct H.
  - cbn [mapM]. unfold mbind at 1, result_bind.
    destruct row as [| | | | | |d]; try discriminate.
    rewrite str_field_dict. unfold mbind, result_bind.
    fold (mapM (λ r, str_field py r "coin" "BTC") rows).
    destruct (mapM (λ r, str_field py r "coin" "BTC") rows) as [names'|]; [|discriminate].
    intros [= <-] c. rewrite elem_of_cons, (IH names' eq_refl c). split.
    + intros [->|(d' & Hin & ->)]; [exists d|exists d']; split; auto; [left|right; exact Hin].
    + intros (d' & Hin & ->). apply elem_of_cons in Hin as [[= ->]|Hin]; [left; reflexivity|].
      right. eauto.
Qed.
(** * The rule code *)

(** C6: [encode_rule] sends every string that starts with [C-] to 5
    whatever the table holds, every other string to its entry in the five
    entry table (R1-mean-reversion 0, R2-mean-reversion 1, R3-trend 2,
    R4-trend 3, R6-sentiment 4) and every unmatched name to 3, the code of
    R4-trend; so [C-anything] gives 5, [R3-trend] 2 and [unknown-rule] 3. *)
Theorem encode_rule_spec (rule : string) :
  encode_rule rule = spec_rule_code rule ∧
  encode_rule ("C-" +:+ rule) = 5 ∧
  map_to_list RULE_MAP ≡ₚ [("R1-mean-reversion", 0); ("R2-mean-reversion", 1);
                            ("R3-trend", 2); ("R4-trend", 3); ("R6-sentiment", 4)] ∧
  encode_rule "C-anything" = 5 ∧ encode_rule "R3-trend" = 2 ∧
  encode_rule "unknown-rule" = 3.
Proof.
  split; [|split; [|split]].
  - unfold encode_rule, spec_rule_code. rewrite RULE_MAP_lookup. reflexivity.
  - unfold encode_rule.
    change ("C-" +:+ rule) with (String "C" (String "-" rule)).
    simpl. destruct rule; reflexivity.
  - unfold RULE_MAP. apply map_to_list_to_map.
    apply (bool_decide_unpack _). vm_compute. exact I.
  - repeat split; reflexivity.
Qed.

(** * The side of the trade *)

(** C7: on every record the fourth feature, [di_spread], is
    [plus_di - minus_di] when the side string is [long] and
    [minus_di - plus_di] otherwise; it is positive for a long record with
    [plus_di > minus_di] and for a short record with
    [minus_di > plus_di]. *)
Theorem di_spread_favourable (py : Builtins) (d : gmap string value) (enc : gmap string Z)
    (fs : list num) (side : string) (plus minus : spec_float) :
  build_features py (VDict d) enc = Ok fs →
  str_field py (VDict d) "side" "long" = Ok side →
  float_field py (VDict d) "plus_di" (VInt 20) = Ok plus →
  float_field py (VDict d) "minus_di" (VInt 20) = Ok minus →
  F64.valid plus = true → F64.valid minus = true →
  ∃ spread : spec_float,
    fs !! 3%nat = Some (NFloat spread) ∧
    spread = (if String.eqb side "long" then F64.sub plus minus else F64.sub minus plus) ∧
    (String.eqb side "long" = true → F64.ltb minus plus = true →
     F64.ltb F64.zero spread = true) ∧
    (String.eqb side "short" = true → F64.ltb plus minus = true →
     F64.ltb F64.zero spread = true).
Proof.
  intros Hfs Hs Hp Hm Vp Vm.
  destruct (features_side py d enc fs Hfs side plus minus Hs Hp Hm) as [H3 _].
  exists (di_spread side plus minus). split; [exact H3|]. split; [reflexivity|].
  unfold di_spread. split.
  - intros -> Hlt. apply SFsub_pos; assumption.
  - intros Hshort Hlt. apply String.eqb_eq in Hshort. subst side. simpl.
    apply SFsub_pos; assumption.
Qed.

Lemma di_spread_favourable_witness :
  ∃ spread : spec_float,
    spec_features demo_py (side_row "short" 10 30) ∅ !! 3%nat = Some (NFloat spread) ∧
    spread = F64.sub (F64.of_Z 30) (F64.of_Z 10) ∧
    (String.eqb "short" "long" = true → F64.ltb (F64.of_Z 30) (F64.of_Z 10) = true →
     F64.ltb F64.zero spread = true) ∧
    (String.eqb "short" "short" = true → F64.ltb (F64.of_Z 10) (F64.of_Z 30) = true →
     F64.ltb F64.zero spread = true).
Proof.
  apply (di_spread_favourable demo_py (side_row "short" 10 30) ∅
           (spec_features demo_py (side_row "short" 10 30) ∅)
           "short" (F64.of_Z 10) (F64.of_Z 30));
    vm_compute; reflexivity.
Defined.

(** C10: when the side of a record is any string other than [long]
    ([LONG] and [buy] as much as [short]) [di_spread] is computed as
    [minus_di - plus_di], while [side_code] is 1 only for [short] and
    falls back to 0, the code of [long], for every other string. *)
Theorem unknown_side_disagrees (py : Builtins) (d : gmap string value) (enc : gmap string Z)
    (fs : list num) (side : string) (plus minus : spec_float) :
  build_features py (VDict d) enc = Ok fs →
  str_field py (VDict d) "side" "long" = Ok side →
  float_field py (VDict d) "plus_di" (VInt 20) = Ok plus →
  float_field py (VDict d) "minus_di" (VInt 20) = Ok minus →
  String.eqb side "long" = false →
  fs !! 3%nat = Some (NFloat (F64.sub minus plus)) ∧
  fs !! 9%nat = Some (NInt (if String.eqb side "short" then 1 else 0)).
Proof.
  intros Hfs Hs Hp Hm Hside.
  destruct (features_side py d enc fs Hfs side plus minus Hs Hp Hm) as [H3 H9].
  rewrite H3, H9. unfold di_spread, spec_side_code. rewrite Hside.
  split; [reflexivity|]. destruct (String.eqb side "short"); reflexivity.
Qed.

Lemma unknown_side_disagrees_witness :
  (spec_features demo_py (side_row "LONG" 30 10) ∅ !! 3%nat
   = Some (NFloat (F64.sub (F64.of_Z 10) (F64.of_Z 30))) ∧
   spec_features demo_py (side_row "LONG" 30 10) ∅ !! 9%nat
   = Some (NInt (if String.eqb "LONG" "short" then 1 else 0))) ∧
  (spec_features demo_py (side_row "buy" 30 10) ∅ !! 3%nat
   = Some (NFloat (F64.sub (F64.of_Z 10) (F64.of_Z 30))) ∧
   spec_features demo_py (side_row "buy" 30 10) ∅ !! 9%nat
   = Some (NInt (if String.eqb "buy" "short" then 1 else 0))).
Proof.
  split.
  - apply (unknown_side_disagrees demo_py (side_row "LONG" 30 10) ∅
             (spec_features demo_py (side_row "LONG" 30 10) ∅)
             "LONG" (F64.of_Z 30) (F64.of_Z 10));
      vm_compute; reflexivity.
  - apply (unknown_side_disagrees demo_py (side_row "buy" 30 10) ∅
             (spec_features demo_py (side_row "buy" 30 10) ∅)
             "buy" (F64.of_Z 30) (F64.of_Z 10));
      vm_compute; reflexivity.
Defined.

(** * The normalised rank *)

(** C3: the last feature is [1.0 - min(alt_rank, 1000) / 1000.0], with
    1.0 and 1000.0 the binary64 data of these values; it lies in [[0,1]]
    whenever the rank is not negative (and is a number); the ranks 0, 1000
    and 5000 give 1.0, 0.0 and 0.0. *)
Theorem alt_rank_norm_unit (py : Builtins) (d : gmap string value) (enc : gmap string Z)
    (fs : list num) (rank : spec_float) :
  build_features py (VDict d) enc = Ok fs →
  float_field py (VDict d) "alt_rank" (VInt 500) = Ok rank →
  (∃ norm : spec_float,
     fs !! 14%nat = Some (NFloat norm) ∧
     norm = F64.sub lit_1_0 (py_truediv (py_min rank 1000) lit_1000_0) ∧
     (F64.valid rank = true → F64.leb F64.zero rank = true →
      F64.leb F64.zero norm = true ∧ F64.leb norm lit_1_0 = true)) ∧
  (lit_1_0 = S754_finite false 4503599627370496 (-52) ∧
   lit_1000_0 = S754_finite false 8796093022208000 (-43) ∧
   F64.zero = S754_zero false) ∧
  (∃ fs0, build_features py (VDict (rank_row 0)) enc = Ok fs0 ∧
          fs0 !! 14%nat = Some (NFloat (S754_finite false 4503599627370496 (-52)))) ∧
  (∃ fs1, build_features py (VDict (rank_row 1000)) enc = Ok fs1 ∧
          fs1 !! 14%nat = Some (NFloat (S754_zero false))) ∧
  (∃ fs5, build_features py (VDict (rank_row 5000)) enc = Ok fs5 ∧
          fs5 !! 14%nat = Some (NFloat (S754_zero false))).
Proof.
  intros Hfs Hr. split.
  - exists (alt_rank_norm rank).
    split; [exact (features_alt_rank py d enc fs Hfs rank Hr)|].
    split; [reflexivity|]. intros V Hpos. apply alt_rank_norm_range; assumption.
  - split; [repeat split; reflexivity|].
    repeat split; eexists; (split; [vm_compute; reflexivity|]); vm_compute; reflexivity.
Qed.

Lemma alt_rank_norm_unit_witness :
  (∃ norm : spec_float,
     spec_features demo_py (rank_row 250) ∅ !! 14%nat = Some (NFloat norm) ∧
     norm = F64.sub lit_1_0 (py_truediv (py_min (F64.of_Z 250) 1000) lit_1000_0) ∧
     (F64.valid (F64.of_Z 250) = true → F64.leb F64.zero (F64.of_Z 250) = true →
      F64.leb F64.zero norm = true ∧ F64.leb norm lit_1_0 = true)) ∧
  (lit_1_0 = S754_finite false 4503599627370496 (-52) ∧
   lit_1000_0 = S754_finite false 8796093022208000 (-43) ∧
   F64.zero = S754_zero false) ∧
  (∃ fs0, build_features demo_py (VDict (rank_row 0)) ∅ = Ok fs0 ∧
          fs0 !! 14%nat = Some (NFloat (S754_finite false 4503599627370496 (-52)))) ∧
  (∃ fs1, build_features demo_py (VDict (rank_row 1000)) ∅ = Ok fs1 ∧
          fs1 !! 14%nat = Some (NFloat (S754_zero false))) ∧
  (∃ fs5, build_features demo_py (VDict (rank_row 5000)) ∅ = Ok fs5 ∧
          fs5 !! 14%nat = Some (NFloat (S754_zero false))).
Proof.
  apply (alt_rank_norm_unit demo_py (rank_row 250) ∅
           (spec_features demo_py (rank_row 250) ∅) (F64.of_Z 250));
    vm_compute; reflexivity.
Defined.

(** The claim as written fails: a rank of -1000 is normalised to 2.0. *)
Lemma alt_rank_norm_above_one :
  ∃ fs norm,
    build_features demo_py (VDict (rank_row (-1000))) ∅ = Ok fs ∧
    fs !! 14%nat = Some (NFloat norm) ∧
    norm = F64.of_Z 2 ∧
    F64.leb norm lit_1_0 = false.
Proof.
  eexists _, _. split; [vm_compute; reflexivity|].
  split; [reflexivity|]. split; vm_compute; reflexivity.
Qed.

(** * The feature vector *)

(** C2: for every record whose numeric fields, where present, convert to
    finite floats and for every coin encoder, [build_features] returns the
    fifteen features [adx, plus_di, minus_di, di_spread, rsi,
    macd_histogram, bb_width, atr_pct, regime_code, side_code, rule_code,
    coin_code, galaxy_score, sentiment_pct, alt_rank_norm] in this order,
    an absent field counting as its default, and every element other than
    [di_spread] is finite. *)
Theorem build_features_vector (py : Builtins) (d : gmap string value) (enc : gmap string Z) :
  numeric_fields_ok py d = true →
  ∃ fs : list num,
    build_features py (VDict d) enc = Ok fs ∧
    fs = spec_features py d enc ∧
    length fs = 15%nat ∧
    (∀ k, k ∈ numeric_keys → d !! k = None →
          py_float py (spec_default k) = Ok (spec_number py d k)) ∧
    (∀ i x, fs !! i = Some x → i ≠ 3%nat → num_finite x = true).
Proof.
  intros Hok. exists (spec_features py d enc).
  assert (Hnum : ∀ k, k ∈ numeric_keys →
            py_float py (default (spec_default k) (d !! k)) = Ok (spec_number py d k) ∧
            F64.valid (spec_number py d k) = true ∧
            F64.is_finite (spec_number py d k) = true)
    by (intros k Hk; apply spec_number_ok; assumption).
  split; [|split; [reflexivity|split; [reflexivity|split]]].
  - apply build_features_total. intros k Hk.
    destruct (Hnum k Hk) as [-> _]. reflexivity.
  - intros k Hk E. destruct (Hnum k Hk) as [H _]. rewrite E in H. exact H.
  - assert (Hfin : ∀ k, k ∈ numeric_keys → F64.is_finite (spec_number py d k) = true)
      by (intros k Hk; apply Hnum; exact Hk).
    assert (Halt : F64.is_finite (spec_alt_rank_norm py d) = true).
    { destruct (Hnum "alt_rank") as (_ & V & F); [repeat constructor|].
      apply alt_rank_norm_finite; assumption. }
    intros i x Hi Hne. unfold spec_features in Hi.
    do 15 (destruct i as [|i];
           [ injection Hi as <-; try reflexivity; try congruence;
             try exact Halt; apply Hfin; repeat constructor |
             simpl in Hi ]).
    discriminate Hi.
Qed.

Lemma build_features_vector_witness :
  ∃ fs : list num,
    build_features demo_py (VDict (side_row "short" 10 30)) ∅ = Ok fs ∧
    fs = spec_features demo_py (side_row "short" 10 30) ∅ ∧
    length fs = 15%nat ∧
    (∀ k, k ∈ numeric_keys → side_row "short" 10 30 !! k = None →
          py_float demo_py (spec_default k)
          = Ok (spec_number demo_py (side_row "short" 10 30) k)) ∧
    (∀ i x, fs !! i = Some x → i ≠ 3%nat → num_finite x = true).
Proof.
  apply (build_features_vector demo_py (side_row "short" 10 30) ∅).
  vm_compute. reflexivity.
Defined.

(** The claim as written fails twice: a field that holds [None] makes the
    call raise, and two finite indicators far apart give an infinite
    [di_spread]. *)
Lemma build_features_not_total_nor_finite :
  build_features demo_py (VDict {["adx" := VNone]}) ∅ = Raise TypeError ∧
  ∃ fs, build_features demo_py (VDict wide_row) ∅ = Ok fs ∧
        fs !! 3%nat = Some (NFloat (S754_infinity false)) ∧
        forallb num_finite fs = false.
Proof.
  split; [vm_compute; reflexivity|].
  eexists. split; [vm_compute; reflexivity|]. split; vm_compute; reflexivity.
Qed.

(** * Labels *)

(** C4: in training the label of a row is its [won] field cast to an
    integer when the field is present, whatever [pnl] says (won 1 with pnl
    -100 is labelled 1); else 1 when [pnl] is at least 0 and 0 when it is
    below (pnl -0.5 is labelled 0); a row with neither field is skipped and
    counted, and so is a row whose processing raises: the loop goes on with
    the next row. *)
Theorem encode_rows_labels (py : Builtins) (enc : gmap string Z) (rows : list value)
    (X : list (list num)) (y : list Z) (skipped : Z) :
  encode_rows py enc rows X y skipped
  = Ok (X ++ (omap (spec_sample py enc) rows).*1,
        y ++ (omap (spec_sample py enc) rows).*2,
        skipped + (len rows - len (omap (spec_sample py enc) rows))) ∧
  (∀ row, match process_row py enc row with
          | Ok r => r = spec_sample py enc row
          | Raise e => is_Exception e = true ∧ spec_sample py enc row = None
          end) ∧
  (∃ f1 f2, encode_rows py enc label_rows [] [] 0 = Ok ([f1; f2], [1; 0], 2)).
Proof.
  split; [apply encode_rows_spec|]. split; [apply process_row_cases|].
  eexists _, _. vm_compute. reflexivity.
Qed.

(** * The two floors of ten *)



(** * How a training run ends *)

(** C9: what a training run does with each failure. A missing [--data],
    an import that raises [ImportError] and too little data, before or
    after the encoding, are reported as one JSON object with the key
    [error], with exit status 1 and no file written. Nothing else is
    caught: an import that raises another exception, a data file that is
    missing or cannot be read, a row that is not an object, a failure of
    one of the two scikit-learn calls and a failure of one of the writes
    end the run with that exception uncaught, status 1 and nothing
    printed. *)
Theorem train_outcomes (py : Builtins) (lib : Libs) (a : args) (stdin : string) (w : world) :
  arg_mode a = Train →
  (arg_data a = None ∨ arg_data a = Some "" →
   run (main py lib a stdin) w
   = {| exit_status := 1; uncaught := None;
        printed := stdout w ++ [[("error", VStr "--data is required for training")]];
        files := fs w |}) ∧
  ∀ data_path, arg_data a = Some data_path → String.eqb data_path "" = false →
    (∀ msg, train_imports lib = Some (ImportError msg) →
       run (main py lib a stdin) w
       = {| exit_status := 1; uncaught := None;
            printed := stdout w ++
              [[("error", VStr ("Missing dependency: " +:+ msg
                                +:+ ". Run ml/setup.sh first."))]];
            files := fs w |}) ∧
    (∀ e, train_imports lib = Some e → (∀ msg, e ≠ ImportError msg) →
          is_Exception e = true →
       run (main py lib a stdin) w
       = {| exit_status := 1; uncaught := Some e; printed := stdout w; files := fs w |}) ∧
    (train_imports lib = None →
     (fs w !! data_path = None ∨ fs w !! data_path = Some Unreadable
      ∨ fs w !! data_path = Some Directory →
      run (main py lib a stdin) w
      = {| exit_status := 1; uncaught := Some (OSError data_path);
           printed := stdout w; files := fs w |}) ∧
     (∀ e, load_rows py data_path (arg_live a) w = (Raise e, w) →
        run (main py lib a stdin) w
        = {| exit_status := 1; uncaught := Some e; printed := stdout w; files := fs w |}) ∧
     ∀ rows, load_rows py data_path (arg_live a) w = (Ok rows, w) →
       (len rows < 10 →
        run (main py lib a stdin) w
        = {| exit_status := 1; uncaught := None;
             printed := stdout w ++
               [[("error", VStr ("Too few samples: " +:+ pretty (len rows)
                                 +:+ " (need >= 10)"))]];
             files := fs w |}) ∧
       (10 <= len rows → forallb is_record rows = false →
        run (main py lib a stdin) w
        = {| exit_status := 1; uncaught := Some AttributeError;
             printed := stdout w; files := fs w |}) ∧
       ∀ enc, 10 <= len rows → build_coin_encoder py rows = Ok enc →
         (len (omap (spec_sample py enc) rows) < 10 →
          run (main py lib a stdin) w
          = {| exit_status := 1; uncaught := None;
               printed := stdout w ++
                 [[("error",
                    VStr ("Too few valid samples after processing: "
                          +:+ pretty (len (omap (spec_sample py enc) rows))
                          +:+ " (skipped "
                          +:+ pretty (len rows - len (omap (spec_sample py enc) rows))
                          +:+ ")"))]];
               files := fs w |}) ∧
         (10 <= len (omap (spec_sample py enc) rows) →
          (cross_val_score lib (omap (spec_sample py enc) rows).*1
             (omap (spec_sample py enc) rows).*2
             (Z.min 5 (Z.max 2 (len (omap (spec_sample py enc) rows) / 10))) = None →
           run (main py lib a stdin) w
           = {| exit_status := 1; uncaught := Some (LibraryError "cross_val_score");
                printed := stdout w; files := fs w |}) ∧
          ∀ cv_scores,
            cross_val_score lib (omap (spec_sample py enc) rows).*1
              (omap (spec_sample py enc) rows).*2
              (Z.min 5 (Z.max 2 (len (omap (spec_sample py enc) rows) / 10)))
            = Some cv_scores →
            (fit lib (omap (spec_sample py enc) rows).*1
                 (omap (spec_sample py enc) rows).*2 = None →
             run (main py lib a stdin) w
             = {| exit_status := 1; uncaught := Some (LibraryError "fit");
                  printed := stdout w; files := fs w |}) ∧
            ∀ clf,
              fit lib (omap (spec_sample py enc) rows).*1
                  (omap (spec_sample py enc) rows).*2 = Some clf →
              (can_write w = false →
               exit_status (run (main py lib a stdin) w) = 1 ∧
               printed (run (main py lib a stdin) w) = stdout w ∧
               ∃ path, uncaught (run (main py lib a stdin) w) = Some (OSError path)) ∧
              (can_write w = true →
               exit_status (run (main py lib a stdin) w) = 0 ∧
               uncaught (run (main py lib a stdin) w) = None ∧
               printed (run (main py lib a stdin) w)
               = stdout w ++
                 [[("ok", VBool true);
                   ("sampleCount", VInt (len (omap (spec_sample py enc) rows)));
                   ("accuracy", VFloat (F64.round_digits (cv_mean lib cv_scores) 4));
                   ("cvScores",
                    VList ((λ s, VFloat (F64.round_digits s 4)) <$> cv_scores))]]))).
Proof.
  intros Hmode. unfold main. rewrite Hmode. split.
  { intros [->| ->]; reflexivity. }
  intros d -> Hd. rewrite Hd.
  split; [|split].
  { intros msg Hi.
    exact (run_exit _ _ _ _ (train_missing_dependency py lib d (arg_live a) w msg Hi)). }
  { intros e Hi Hne He.
    exact (run_uncaught _ _ _ _ (train_import_raises py lib d (arg_live a) w e Hi Hne) He). }
  intros Hi.
  assert (Hfail : ∀ e, load_rows py d (arg_live a) w = (Raise e, w) →
            run (train py lib d (arg_live a)) w
            = {| exit_status := 1; uncaught := Some e;
                 printed := stdout w; files := fs w |}).
  { intros e Hl. destruct (load_rows_cases py d (arg_live a) w) as (r & Hl' & Hr).
    rewrite Hl in Hl'. injection Hl' as <-.
    exact (run_uncaught _ _ _ _ (train_load_failed py lib d (arg_live a) w e Hi Hl) Hr). }
  split; [|split; [exact Hfail|]].
  { intros Hf. apply Hfail.
    unfold load_rows, load_jsonl, mbind, M_bind, read_text.
    destruct Hf as [-> |[-> | ->]]; reflexivity. }
  intros rows Hl.
  pose proof (train_loaded py lib d (arg_live a) w rows Hi Hl) as Ht. cbv zeta in Ht.
  split; [|split].
  { intros Hlt. apply Z.ltb_lt in Hlt. rewrite Hlt in Ht. exact (run_exit _ _ _ _ Ht). }
  { intros Hge Hrec. apply Z.ltb_ge in Hge. rewrite Hge in Ht.
    pose proof (build_coin_encoder_cases py rows) as Henc.
    destruct (build_coin_encoder py rows) as [enc|e]; [congruence|].
    destruct Henc as [-> _]. exact (run_uncaught _ _ _ _ Ht eq_refl). }
  intros enc Hge Henc. apply Z.ltb_ge in Hge. rewrite Hge, Henc in Ht.
  split.
  { intros Hlt. apply Z.ltb_lt in Hlt. rewrite Hlt in Ht. exact (run_exit _ _ _ _ Ht). }
  intros Hkept. apply Z.ltb_ge in Hkept. rewrite Hkept in Ht.
  split.
  { intros Hcv. rewrite Hcv in Ht. exact (run_uncaught _ _ _ _ Ht eq_refl). }
  intros cv_scores Hcv. rewrite Hcv in Ht.
  split.
  { intros Hfit. rewrite Hfit in Ht. exact (run_uncaught _ _ _ _ Ht eq_refl). }
  intros clf Hfit. rewrite Hfit in Ht.
  destruct (save_artifacts_cases py clf enc
              (training_meta lib (len (omap (spec_sample py enc) rows))
                 (cv_mean lib cv_scores) cv_scores
                 (len rows - len (omap (spec_sample py enc) rows))) w)
    as (r & w' & Hs & Hout & _ & Hr).
  rewrite Hs in Ht. destruct r as [[]|e].
  - split; [intros Hw; congruence|]. intros _.
    rewrite (run_returns _ _ _ _ Ht). cbn [exit_status uncaught printed stdout].
    rewrite Hout. repeat split.
  - destruct Hr as (Hw & path & ->). split; [|intros Hw'; congruence]. intros _.
    rewrite (run_uncaught _ _ _ _ Ht eq_refl). cbn [exit_status uncaught printed].
    rewrite Hout. repeat split. exists path. reflexivity.
Qed.

Lemma train_outcomes_witness :
  run (main demo_py missing_lib (train_args "data.jsonl") "") (demo_world 10)
  = {| exit_status := 1; uncaught := None;
       printed := [[("error",
                     VStr "Missing dependency: No module named 'sklearn'. Run ml/setup.sh first.")]];
       files := fs (demo_world 10) |} ∧
  run (main demo_py demo_lib (train_args "data.jsonl") "") empty_world
  = {| exit_status := 1; uncaught := Some (OSError "data.jsonl");
       printed := []; files := fs empty_world |} ∧
  exit_status (run (main demo_py demo_lib (train_args "data.jsonl") "") blocked_world) = 1 ∧
  printed (run (main demo_py demo_lib (train_args "data.jsonl") "") blocked_world) = [] ∧
  ∃ path, uncaught (run (main demo_py demo_lib (train_args "data.jsonl") "") blocked_world)
          = Some (OSError path).
Proof.
  split; [|split].
  - destruct (train_outcomes demo_py missing_lib (train_args "data.jsonl") ""
                (demo_world 10) eq_refl) as [_ H].
    destruct (H "data.jsonl" eq_refl eq_refl) as (Hm & _).
    rewrite (Hm _ eq_refl). vm_compute. reflexivity.
  - destruct (train_outcomes demo_py demo_lib (train_args "data.jsonl") ""
                empty_world eq_refl) as [_ H].
    destruct (H "data.jsonl" eq_refl eq_refl) as (_ & _ & Hn).
    destruct (Hn eq_refl) as (Hf & _).
    rewrite Hf by (left; reflexivity). reflexivity.
  - destruct (train_outcomes demo_py demo_lib (train_args "data.jsonl") ""
                blocked_world eq_refl) as [_ H].
    destruct (H "data.jsonl" eq_refl eq_refl) as (_ & _ & Hn).
    destruct (Hn eq_refl) as (_ & _ & Hr).
    assert (Hl : load_rows demo_py "data.jsonl" (arg_live (train_args "data.jsonl"))
                   blocked_world = (Ok (replicate 10 (VDict won_row)), blocked_world))
      by (vm_compute; reflexivity).
    destruct (Hr _ Hl) as (_ & _ & He).
    assert (Henc : build_coin_encoder demo_py (replicate 10 (VDict won_row))
                   = Ok {["BTC" := 0; "_unknown" := 1]}) by (vm_compute; reflexivity).
    destruct (He _ ltac:(vm_compute; discriminate) Henc) as (_ & Hk).
    destruct (Hk ltac:(vm_compute; discriminate)) as (_ & Hcv).
    assert (Hc : cross_val_score demo_lib
                   (omap (spec_sample demo_py {["BTC" := 0; "_unknown" := 1]})
                      (replicate 10 (VDict won_row))).*1
                   (omap (spec_sample demo_py {["BTC" := 0; "_unknown" := 1]})
                      (replicate 10 (VDict won_row))).*2
                   (Z.min 5 (Z.max 2 (len (omap (spec_sample demo_py
                                                   {["BTC" := 0; "_unknown" := 1]})
                                             (replicate 10 (VDict won_row))) / 10)))
                 = Some [lit_0_5; lit_0_5]) by (vm_compute; reflexivity).
    destruct (Hcv _ Hc) as (_ & Hfit).
    destruct (Hfit demo_clf eq_refl) as (Hno & _).
    exact (Hno ltac:(vm_compute; reflexivity)).
Defined.

(** The claim as written fails: when the primary data file does not exist
    the run ends with an uncaught [OSError] and prints nothing. *)
Lemma train_missing_file_uncaught :
  run (main demo_py demo_lib (train_args "nofile.jsonl") "") empty_world
  = {| exit_status := 1; uncaught := Some (OSError "nofile.jsonl");
       printed := []; files := ∅ |}.
Proof. vm_compute. reflexivity. Qed.

(** * Scoring never fails *)




(** * The score *)

(** C8: when the artifacts load, the input decodes to a row that encodes
    and the classifier answers, the object printed holds the probability
    the classifier gives to class 1 (the entry of the first row at the
    position of 1 among the classes) rounded to 4 decimal places, that is
    the binary64 nearest to k / 10000 for the integer k nearest to
    10000 times the probability, and as [modelSamples] the [sampleCount]
    of the stored metadata, 0 when the metadata file is absent; when 1 is
    not among the classes the score is 0.5. *)
Theorem score_happy_path (py : Builtins) (lib : Libs) (stdin : string) (w : world)
    (clf : classifier) (enc : gmap string Z) (meta : gmap string value)
    (row : value) (features : list num) (proba : list spec_float)
    (rest : list (list spec_float)) :
  score_imports lib = None →
  load_artifacts py w = (Ok (PClassifier clf, enc, VDict meta), w) →
  String.eqb (strip stdin) "" = false →
  json_loads py (strip stdin) = Some row →
  build_features py row enc = Ok features →
  predict_proba clf [features] = Some (proba :: rest) →
  (∀ i p, classes_ clf !! i = Some 1 → (∀ j, (j < i)%nat → classes_ clf !! j ≠ Some 1) →
          proba !! i = Some p →
          ∃ r : spec_float,
            spec_rounded p 4 r ∧
            run (score py lib stdin) w
            = {| exit_status := 0; uncaught := None;
                 printed := stdout w ++
                   [[("score", VFloat r);
                     ("modelSamples", default (VInt 0) (meta !! "sampleCount"))]];
                 files := fs w |}) ∧
  (1 ∉ classes_ clf →
   run (score py lib stdin) w
   = {| exit_status := 0; uncaught := None;
        printed := stdout w ++
          [[("score", VFloat (S754_finite false 4503599627370496 (-53)));
            ("modelSamples", default (VInt 0) (meta !! "sampleCount"))]];
        files := fs w |}) ∧
  match fs w !! meta_path with
  | None => default (VInt 0) (meta !! "sampleCount") = VInt 0
  | Some (Text doc) => json_loads py doc = Some (VDict meta)
  | Some _ => False
  end.
Proof.
  intros Hi Hl He Hj Hf Hp.
  pose proof (score_loaded py lib stdin w _ _ _ Hi Hl) as Hs. rewrite He in Hs.
  unfold score_row, loads in Hs. rewrite Hj in Hs.
  unfold mbind at 1, result_bind at 1 in Hs. rewrite Hf in Hs.
  unfold mbind at 1, result_bind at 1, first_proba in Hs. rewrite Hp in Hs.
  unfold mbind at 1, result_bind at 1, get_classes in Hs.
  unfold mbind at 1, result_bind at 1 in Hs.
  unfold win_index, score_value in Hs.
  split; [|split].
  - intros i p Hc Hfirst Hpi.
    assert (Hidx : index_of 1 (classes_ clf) = Some i).
    { destruct (index_of 1 (classes_ clf)) as [k|] eqn:Ek.
      - destruct (index_of_Some _ _ _ Ek) as [Hk Hlt]. f_equal.
        destruct (Nat.lt_trichotomy k i) as [Hki|[->|Hik]]; [|reflexivity|].
        + exfalso. exact (Hfirst k Hki Hk).
        + exfalso. exact (Hlt i Hik Hc).
      - apply index_of_None in Ek. exfalso. apply Ek.
        apply list_elem_of_lookup. eauto. }
    rewrite Hidx in Hs.
    replace (0 <=? Z.of_nat i) with true in Hs by (symmetry; apply Z.leb_le; lia).
    rewrite Nat2Z.id, Hpi in Hs.
    exists (F64.round_digits p 4). split; [apply round_digits_spec|].
    exact (run_returns _ _ _ _ Hs).
  - intros Hnot. apply index_of_None in Hnot. rewrite Hnot in Hs.
    change (0 <=? -1) with false in Hs.
    unfold mbind, result_bind, mret, result_ret, dict_get in Hs.
    rewrite round_half in Hs. exact (run_returns _ _ _ _ Hs).
  - destruct (load_artifacts_cases py w) as (r & Hr & Hfiles). rewrite Hl in Hr.
    injection Hr as <-. destruct Hfiles as (_ & _ & Hm).
    destruct (fs w !! meta_path) as [[doc|p| |]|]; try exact Hm.
    injection Hm as ->. reflexivity.
Qed.

Lemma score_happy_path_witness :
  (∃ r : spec_float,
     spec_rounded two_thirds 4 r ∧
     run (score demo_py demo_lib "  {}  ") (world_with thirds_clf None)
     = {| exit_status := 0; uncaught := None;
          printed := stdout (world_with thirds_clf None) ++
            [[("score", VFloat r);
              ("modelSamples",
               default (VInt 0) ((∅ : gmap string value) !! "sampleCount"))]];
          files := fs (world_with thirds_clf None) |} ∧
     printed (run (score demo_py demo_lib "  {}  ") (world_with thirds_clf None))
     = [[("score", VFloat (S754_finite false 6005099743135819 (-53)));
         ("modelSamples", VInt 0)]]) ∧
  run (score demo_py demo_lib "  {}  ") (world_with losses_clf None)
  = {| exit_status := 0; uncaught := None;
       printed := [[("score", VFloat (S754_finite false 4503599627370496 (-53)));
                    ("modelSamples", VInt 0)]];
       files := fs (world_with losses_clf None) |}.
Proof.
  split.
  - destruct (score_happy_path demo_py demo_lib "  {}  " (world_with thirds_clf None)
                thirds_clf {["_unknown" := 0]} ∅ (VDict ∅)
                (spec_features demo_py ∅ {["_unknown" := 0]}) [one_third; two_thirds] [])
      as (H & _); [vm_compute; reflexivity ..|].
    destruct (H 1%nat two_thirds eq_refl) as (r & Hr & Hrun); [|reflexivity|].
    { intros [|j] Hlt; [discriminate|lia]. }
    exists r. split; [exact Hr|]. split; [exact Hrun|]. vm_compute. reflexivity.
  - destruct (score_happy_path demo_py demo_lib "  {}  " (world_with losses_clf None)
                losses_clf {["_unknown" := 0]} ∅ (VDict ∅)
                (spec_features demo_py ∅ {["_unknown" := 0]}) [F64.of_Z 1] [])
      as (_ & H & _); [vm_compute; reflexivity ..|].
    rewrite H; [reflexivity|].
    intros Hin. apply list_elem_of_singleton in Hin. discriminate Hin.
Defined.

(** * Further properties of the feature encoder *)

(** X1: [build_features] reads the fourteen feature fields and nothing
    else, so two records that agree on them (and differ, say, in [won] or
    [pnl]) are encoded alike. *)
Theorem build_features_reads_feature_keys (py : Builtins) (d d' : gmap string value)
    (enc : gmap string Z) :
  (∀ k, k ∈ feature_keys → d !! k = d' !! k) →
  build_features py (VDict d) enc = build_features py (VDict d') enc.
Proof.
  intros H. unfold build_features. rewrite !float_field_dict, !str_field_dict.
  rewrite (H "adx"), (H "plus_di"), (H "minus_di"), (H "side"), (H "rsi"),
    (H "macd_histogram"), (H "bb_width"), (H "atr_pct"), (H "regime"),
    (H "rule"), (H "coin"), (H "galaxy_score"), (H "sentiment_pct"), (H "alt_rank")
    by (unfold feature_keys; repeat constructor).
  reflexivity.
Qed.

Lemma build_features_reads_feature_keys_witness :
  build_features demo_py (VDict outcome_row_a) ∅
  = build_features demo_py (VDict outcome_row_b) ∅.
Proof.
  apply (build_features_reads_feature_keys demo_py outcome_row_a outcome_row_b ∅).
  intros k Hk. unfold feature_keys in Hk.
  repeat (apply elem_of_cons in Hk as [->|Hk]; [vm_compute; reflexivity|]).
  apply elem_of_nil in Hk. destruct Hk.
Defined.

(** X2: in every vector [build_features] returns the regime code is
    between 0 and 3, the side code 0 or 1 and the rule code between 0 and
    5, whatever strings the record holds. *)
Theorem categorical_codes_in_range (py : Builtins) (row : value) (enc : gmap string Z)
    (fs : list num) :
  build_features py row enc = Ok fs →
  ∃ regime side rule : Z,
    fs !! 8%nat = Some (NInt regime) ∧ fs !! 9%nat = Some (NInt side) ∧
    fs !! 10%nat = Some (NInt rule) ∧
    0 <= regime <= 3 ∧ 0 <= side <= 1 ∧ 0 <= rule <= 5.
Proof.
  intros Hfs.
  destruct (build_features_not_dict py row enc) as [Hrec|E]; [|congruence].
  destruct row as [| | | | | |d]; try discriminate Hrec.
  apply build_features_Ok in Hfs as [-> _].
  eexists _, _, _. split; [reflexivity|]. split; [reflexivity|]. split; [reflexivity|].
  unfold spec_regime_code, spec_side_code, spec_rule_code.
  repeat match goal with |- context [if ?b then _ else _] => destruct b end; lia.
Qed.

Lemma categorical_codes_in_range_witness :
  ∃ regime side rule : Z,
    spec_features demo_py (side_row "buy" 30 10) ∅ !! 8%nat = Some (NInt regime) ∧
    spec_features demo_py (side_row "buy" 30 10) ∅ !! 9%nat = Some (NInt side) ∧
    spec_features demo_py (side_row "buy" 30 10) ∅ !! 10%nat = Some (NInt rule) ∧
    0 <= regime <= 3 ∧ 0 <= side <= 1 ∧ 0 <= rule <= 5.
Proof.
  apply (categorical_codes_in_range demo_py (VDict (side_row "buy" 30 10)) ∅).
  vm_compute. reflexivity.
Defined.

(** X3: the clamp of [alt_rank]: every rank at or above 1000, infinity
    included, is normalised to exactly 0.0, and so is the last feature of
    a record with such a rank. *)
Theorem alt_rank_norm_clamped (rank : spec_float) :
  F64.leb (F64.of_Z 1000) rank = true →
  alt_rank_norm rank = F64.zero ∧
  F64.zero = S754_zero false ∧
  F64.of_Z 1000 = S754_finite false 8796093022208000 (-43) ∧
  ∀ (py : Builtins) (d : gmap string value) (enc : gmap string Z) (fs : list num),
    build_features py (VDict d) enc = Ok fs →
    float_field py (VDict d) "alt_rank" (VInt 500) = Ok rank →
    fs !! 14%nat = Some (NFloat (S754_zero false)).
Proof.
  intros Hle.
  assert (Hz : alt_rank_norm rank = F64.zero).
  { unfold alt_rank_norm, py_min.
    destruct (F64.ltb (F64.of_Z 1000) rank) eqn:Hlt; [vm_compute; reflexivity|].
    assert (rank = F64.of_Z 1000) as ->; [|vm_compute; reflexivity].
    rewrite of_Z_1000 in *. unfold F64.ltb, SFltb in Hlt. unfold F64.leb, SFleb in Hle.
    apply SFcompare_Eq_finite.
    destruct (SFcompare (S754_finite false 8796093022208000 (-43)) rank) as [[| |]|];
      try discriminate; reflexivity. }
  split; [exact Hz|]. split; [reflexivity|]. split; [reflexivity|].
  intros py d enc fs Hfs Hr.
  rewrite (features_alt_rank py d enc fs Hfs rank Hr), Hz. reflexivity.
Qed.

Lemma alt_rank_norm_clamped_witness :
  alt_rank_norm (S754_infinity false) = F64.zero ∧
  F64.zero = S754_zero false ∧
  F64.of_Z 1000 = S754_finite false 8796093022208000 (-43) ∧
  ∀ (py : Builtins) (d : gmap string value) (enc : gmap string Z) (fs : list num),
    build_features py (VDict d) enc = Ok fs →
    float_field py (VDict d) "alt_rank" (VInt 500) = Ok (S754_infinity false) →
    fs !! 14%nat = Some (NFloat (S754_zero false)).
Proof. apply (alt_rank_norm_clamped (S754_infinity false)). reflexivity. Defined.

(** X4: on a record [build_features] fails exactly when one of the ten
    numeric fields, or its default when the field is absent, does not
    convert with [float]; a field that is present and does not convert is
    not replaced by its default. *)
Theorem build_features_fails_iff (py : Builtins) (d : gmap string value)
    (enc : gmap string Z) :
  is_Ok (build_features py (VDict d) enc)
  = forallb (λ k, is_Ok (py_float py (default (spec_default k) (d !! k)))) numeric_keys.
Proof.
  destruct (build_features py (VDict d) enc) as [fs|e] eqn:E; simpl is_Ok.
  - symmetry. apply forallb_forall. intros k Hk. apply list_elem_of_In in Hk.
    apply build_features_Ok in E as [_ H]. rewrite (H k Hk). reflexivity.
  - symmetry. apply not_true_is_false. intros Hall.
    rewrite forallb_forall in Hall.
    rewrite build_features_total in E; [discriminate|].
    intros k Hk. apply Hall, list_elem_of_In, Hk.
Qed.

(** * Further properties of training *)

(** X5: the per-row loop of [train] always finishes; the samples and the
    labels it returns have the same length, every sample has fifteen
    features, and the samples and the skipped rows add up to the rows
    read. *)
Theorem encode_rows_invariants (py : Builtins) (enc : gmap string Z) (rows : list value) :
  ∃ (X : list (list num)) (y : list Z) (skipped : Z),
    encode_rows py enc rows [] [] 0 = Ok (X, y, skipped) ∧
    length X = length y ∧
    Forall (λ features, length features = 15%nat) X ∧
    0 <= skipped ∧ len X + skipped = len rows.
Proof.
  eexists _, _, _. split; [apply encode_rows_spec|].
  cbn [app]. rewrite !length_fmap, len_fmap.
  pose proof (len_omap_le (spec_sample py enc) rows) as Hle.
  split; [reflexivity|]. split; [|lia].
  apply Forall_fmap, Forall_forall. intros [fs label] Hin. simpl.
  apply list_elem_of_omap in Hin as (row & _ & Hrow).
  exact (spec_sample_length _ _ _ _ _ Hrow).
Qed.



(** X7: [train] asks for a cross-validation only with 2 to 5 folds, on at
    least 10 samples, with as many labels as samples and no more folds
    than samples: a routine that differs from the library's elsewhere
    gives the same run. *)
Theorem train_fold_count (py : Builtins) (lib : Libs)
    (cv : list (list num) → list Z → Z → option (list spec_float))
    (data_path : string) (live_path : option string) (w : world) :
  (∀ X y k, 2 <= k <= 5 → 10 <= len X → k <= len X → length y = length X →
            cv X y k = cross_val_score lib X y k) →
  train py (with_cross_val_score lib cv) data_path live_path w
  = train py lib data_path live_path w.
Proof.
  intros Hcv. set (lib' := with_cross_val_score lib cv).
  assert (Hi' : train_imports lib' = train_imports lib) by reflexivity.
  destruct (train_imports lib) as [e|] eqn:Hi.
  { unfold train. rewrite Hi, Hi'. reflexivity. }
  destruct (load_rows_cases py data_path live_path w) as (r & Hl & _).
  destruct r as [rows|e].
  2:{ rewrite (train_load_failed py lib _ _ _ e Hi Hl).
      apply train_load_failed; assumption. }
  rewrite (train_loaded py lib _ _ _ rows Hi Hl).
  rewrite (train_loaded py lib' _ _ _ rows Hi' Hl). cbv zeta.
  destruct (len rows <? 10); [reflexivity|].
  destruct (build_coin_encoder py rows) as [enc|e]; [|reflexivity].
  destruct (len (omap (spec_sample py enc) rows) <? 10) eqn:Hn; [reflexivity|].
  apply Z.ltb_ge in Hn.
  change (cross_val_score lib') with cv. rewrite Hcv; [reflexivity| | | |].
  - lia.
  - rewrite len_fmap. exact Hn.
  - rewrite len_fmap.
    assert (len (omap (spec_sample py enc) rows) / 10 <= len (omap (spec_sample py enc) rows))
      by (apply Z.div_le_upper_bound; lia).
    lia.
  - rewrite !length_fmap. reflexivity.
Qed.

Lemma train_fold_count_witness :
  train demo_py (with_cross_val_score demo_lib strict_cross_val_score)
    "data.jsonl" None (demo_world 10)
  = train demo_py demo_lib "data.jsonl" None (demo_world 10).
Proof.
  apply (train_fold_count demo_py demo_lib strict_cross_val_score
           "data.jsonl" None (demo_world 10)).
  intros X y k Hk HX _ Hy. unfold strict_cross_val_score, len. rewrite Hy.
  replace (2 <=? k) with true by (symmetry; apply Z.leb_le; lia).
  replace (k <=? 5) with true by (symmetry; apply Z.leb_le; lia).
  replace (10 <=? Z.of_nat (length X)) with true
    by (symmetry; apply Z.leb_le; exact HX).
  rewrite Z.eqb_refl. reflexivity.
Defined.

(** X8: the live file is optional where the primary file is not: a live
    path that is empty or names no file is passed over, and the rows of a
    live file that is read come after those of the primary file. *)
Theorem load_rows_live (py : Builtins) (data_path live_path : string) (w : world)
    (rows : list value) :
  load_jsonl py data_path w = (Ok rows, w) →
  (fs w !! live_path = None ∨ live_path = "" →
   load_rows py data_path (Some live_path) w = (Ok rows, w)) ∧
  (∀ live_rows, live_path ≠ "" → load_jsonl py live_path w = (Ok live_rows, w) →
                load_rows py data_path (Some live_path) w = (Ok (rows ++ live_rows), w)) ∧
  (∀ f, live_path ≠ "" → fs w !! live_path = Some f → (∀ c, f ≠ Text c) →
        ∃ e, load_rows py data_path (Some live_path) w = (Raise e, w)) ∧
  load_rows py data_path None w = (Ok rows, w).
Proof.
  intros Hd.
  assert (Hgen : ∀ p, load_rows py data_path (Some p) w
            = if negb (String.eqb p "") && bool_decide (is_Some (fs w !! p))
              then match load_jsonl py p w with
                   | (Ok live_rows, w') => (Ok (rows ++ live_rows), w')
                   | (Raise e, w') => (Raise e, w')
                   end
              else (Ok rows, w)).
  { intros p. unfold load_rows. unfold mbind at 1, M_bind at 1. rewrite Hd.
    unfold mbind at 1, M_bind at 1, path_exists.
    destruct (negb (String.eqb p "") && bool_decide (is_Some (fs w !! p)));
      [|reflexivity].
    unfold mbind, M_bind. destruct (load_jsonl py p w) as [[live_rows|e] w'];
      reflexivity. }
  split; [|split; [|split]].
  - rewrite Hgen. intros [Hnone| ->]; [|reflexivity].
    rewrite Hnone, bool_decide_eq_false_2 by (intros [x Hx]; discriminate Hx).
    rewrite andb_false_r. reflexivity.
  - intros live_rows Hne Hl. rewrite Hgen, Hl.
    assert (Hsome : is_Some (fs w !! live_path)).
    { revert Hl. unfold load_jsonl, mbind, M_bind, read_text.
      destruct (fs w !! live_path) as [f|]; [eauto|discriminate]. }
    rewrite bool_decide_eq_true_2 by exact Hsome.
    apply String.eqb_neq in Hne. rewrite Hne. reflexivity.
  - intros f Hne Hf Hnot. rewrite Hgen.
    rewrite bool_decide_eq_true_2 by (rewrite Hf; eauto).
    apply String.eqb_neq in Hne. rewrite Hne. cbn [negb andb].
    unfold load_jsonl, mbind, M_bind, read_text. rewrite Hf.
    destruct f as [c|p| |]; [destruct (Hnot c eq_refl)|eauto|eauto|eauto].
  - unfold load_rows, mbind, M_bind. rewrite Hd. reflexivity.
Qed.

Lemma load_rows_live_witness :
  (fs (demo_world 2) !! "live.jsonl" = None ∨ "live.jsonl" = "" →
   load_rows demo_py "data.jsonl" (Some "live.jsonl") (demo_world 2)
   = (Ok [VDict won_row; VDict won_row], demo_world 2)) ∧
  (∀ live_rows, "live.jsonl" ≠ "" →
     load_jsonl demo_py "live.jsonl" (demo_world 2) = (Ok live_rows, demo_world 2) →
     load_rows demo_py "data.jsonl" (Some "live.jsonl") (demo_world 2)
     = (Ok ([VDict won_row; VDict won_row] ++ live_rows), demo_world 2)) ∧
  (∀ f, "live.jsonl" ≠ "" → fs (demo_world 2) !! "live.jsonl" = Some f →
        (∀ c, f ≠ Text c) →
        ∃ e, load_rows demo_py "data.jsonl" (Some "live.jsonl") (demo_world 2)
             = (Raise e, demo_world 2)) ∧
  load_rows demo_py "data.jsonl" None (demo_world 2)
  = (Ok [VDict won_row; VDict won_row], demo_world 2).
Proof.
  apply (load_rows_live demo_py "data.jsonl" "live.jsonl" (demo_world 2)
           [VDict won_row; VDict won_row]).
  vm_compute. reflexivity.
Defined.

(** X9: [load_jsonl] on a readable file leaves the world as it is. When
    no line makes [json.loads] raise anything but [JSONDecodeError], it
    returns the decodings of the lines that are not blank and that decode,
    one row per such line and in the order of the lines: a blank line or a
    line that is not JSON is dropped without a trace. The first line on
    which [json.loads] raises another exception ends the load with that
    exception. *)
Theorem load_jsonl_rows (py : Builtins) (path : string) (w : world) (content : string) :
  fs w !! path = Some (Text content) →
  ((∀ line, line ∈ splitlines content → json_loads py (strip line) = None →
            strip line = "" ∨ json_error py (strip line) = NotJSON) →
   load_jsonl py path w
   = (Ok (omap (λ line, if String.eqb (strip line) "" then None
                        else json_loads py (strip line))
               (splitlines content)), w)) ∧
  (∀ before line after,
     splitlines content = before ++ line :: after →
     (∀ l, l ∈ before → json_loads py (strip l) = None →
           strip l = "" ∨ json_error py (strip l) = NotJSON) →
     strip line ≠ "" → json_loads py (strip line) = None →
     json_error py (strip line) ≠ NotJSON →
     load_jsonl py path w
     = (Raise (match json_error py (strip line) with
               | NotJSON => JSONDecodeError (strip line)
               | TooDeep => RecursionError
               | TooLong => ValueError
               end), w)).
Proof.
  intros Hf.
  assert (Hload : load_jsonl py path w = (decode_lines py (splitlines content), w))
    by (unfold load_jsonl, mbind, M_bind, read_text; rewrite Hf; reflexivity).
  rewrite Hload. clear Hload Hf.
  assert (Hok : ∀ lines,
            (∀ line, line ∈ lines → json_loads py (strip line) = None →
                     strip line = "" ∨ json_error py (strip line) = NotJSON) →
            decode_lines py lines
            = Ok (omap (λ line, if String.eqb (strip line) "" then None
                                else json_loads py (strip line)) lines)).
  { induction lines as [|line rest IH]; intros H; [reflexivity|].
    cbn [decode_lines omap list_omap]. cbv zeta.
    rewrite IH by (intros l Hl; apply H; right; exact Hl).
    destruct (String.eqb_spec (strip line) "") as [E|E]; [reflexivity|].
    destruct (json_loads py (strip line)) as [row|] eqn:Ej; [reflexivity|].
    destruct (H line ltac:(left) Ej) as [?| ->]; [contradiction|reflexivity]. }
  split.
  - intros H. rewrite (Hok _ H). reflexivity.
  - intros before line after -> Hbefore Hne Hj He. f_equal.
    induction before as [|l before IH].
    + cbn [app decode_lines]. cbv zeta.
      apply String.eqb_neq in Hne. rewrite Hne, Hj. unfold json_exn.
      destruct (json_error py (strip line)); [contradiction|reflexivity|reflexivity].
    + cbn [app decode_lines]. cbv zeta.
      rewrite IH by (intros l' Hl'; apply Hbefore; right; exact Hl').
      destruct (String.eqb (strip l) "") eqn:E; [reflexivity|].
      destruct (json_loads py (strip l)) as [row|] eqn:Ej; [reflexivity|].
      apply String.eqb_neq in E.
      destruct (Hbefore l ltac:(left) Ej) as [?| ->]; [contradiction|reflexivity].
Qed.

Lemma load_jsonl_rows_witness :
  load_jsonl demo_py "data.jsonl" (unlabelled_world 2)
  = (Ok [VDict ∅; VDict ∅], unlabelled_world 2).
Proof.
  destruct (load_jsonl_rows demo_py "data.jsonl" (unlabelled_world 2)
              (repeat_line 2 "{}") eq_refl) as [H _].
  rewrite H; [vm_compute; reflexivity|].
  intros line _ _. right. reflexivity.
Defined.

(** * Further properties of scoring *)

(** X10: an input that is JSON but not an object (a list, a number, a
    string) is answered with a null score whose error is the text of the
    [AttributeError] raised by [row.get]. *)
Theorem score_non_object (py : Builtins) (lib : Libs) (stdin : string) (w : world)
    (art : pickle * gmap string Z * value) (row : value) :
  score_imports lib = None →
  load_artifacts py w = (Ok art, w) →
  String.eqb (strip stdin) "" = false →
  json_loads py (strip stdin) = Some row →
  is_record row = false →
  run (score py lib stdin) w
  = {| exit_status := 0; uncaught := None;
       printed := stdout w ++ [null_score (exn_str py AttributeError)];
       files := fs w |}.
Proof.
  intros Hi Hl He Hj Hrow. destruct art as [[clf enc] meta].
  pose proof (score_loaded py lib stdin w clf enc meta Hi Hl) as Hs.
  rewrite He, (score_row_not_record py clf enc meta _ row Hj Hrow) in Hs.
  exact (run_returns _ _ _ _ Hs).
Qed.

Lemma score_non_object_witness :
  run (score list_py demo_lib " [] ") trained_world
  = {| exit_status := 0; uncaught := None;
       printed := stdout trained_world ++ [null_score (exn_str list_py AttributeError)];
       files := fs trained_world |}.
Proof.
  apply (score_non_object list_py demo_lib " [] " trained_world
           (PClassifier demo_clf, {["_unknown" := 0]}, VDict ∅) (VList []));
    vm_compute; reflexivity.
Defined.

(** X11: once the artifacts are loaded, an input made of white space
    only (spaces, tabs, line ends) is answered with [Empty stdin]. *)
Theorem score_blank_stdin (py : Builtins) (lib : Libs) (stdin : string) (w : world)
    (art : pickle * gmap string Z * value) :
  score_imports lib = None →
  load_artifacts py w = (Ok art, w) →
  forallb is_space (list_ascii_of_string stdin) = true →
  run (score py lib stdin) w
  = {| exit_status := 0; uncaught := None;
       printed := stdout w ++ [null_score "Empty stdin"];
       files := fs w |}.
Proof.
  intros Hi Hl Hblank. destruct art as [[clf enc] meta].
  pose proof (score_loaded py lib stdin w clf enc meta Hi Hl) as Hs.
  rewrite (strip_blank stdin Hblank) in Hs.
  exact (run_returns _ _ _ _ Hs).
Qed.

Lemma score_blank_stdin_witness :
  run (score demo_py demo_lib (" " +:+ newline +:+ " ")) trained_world
  = {| exit_status := 0; uncaught := None;
       printed := stdout trained_world ++ [null_score "Empty stdin"];
       files := fs trained_world |}.
Proof.
  apply (score_blank_stdin demo_py demo_lib (" " +:+ newline +:+ " ") trained_world
           (PClassifier demo_clf, {["_unknown" := 0]}, VDict ∅));
    vm_compute; reflexivity.
Defined.

(** * The coin encoder and the round trip *)

(** X12: the coin encoder built by [train] numbers the distinct coin
    names of the rows from 0 in increasing order of the names, and maps
    [_unknown] to their count; so each coin seen in training has a code
    of its own below that count, and [build_features] gives every coin
    that was not seen the code of [_unknown]. *)
Theorem coin_encoder_codes (py : Builtins) (rows : list value) (enc : gmap string Z) :
  build_coin_encoder py rows = Ok enc →
  ∃ coins : list string,
    StronglySorted string_lt coins ∧
    (∀ c, c ∈ coins ↔
          ∃ d, VDict d ∈ rows ∧ c = py_str py (default (VStr "BTC") (d !! "coin"))) ∧
    enc !! "_unknown" = Some (len coins) ∧
    (∀ c i, c ≠ "_unknown" →
            enc !! c = Some i ↔ 0 <= i ∧ coins !! Z.to_nat i = Some c) ∧
    (∀ c, c ∉ coins →
          default (default 0 (enc !! "_unknown")) (enc !! c) = len coins).
Proof.
  unfold build_coin_encoder, mbind, result_bind, mret, result_ret.
  destruct (mapM (λ r, str_field py r "coin" "BTC") rows) as [names|] eqn:Hn;
    [|discriminate].
  intros [= <-]. exists (sorted_set names).
  pose proof (sorted_set_sorted names) as Hs.
  pose proof (sorted_NoDup _ Hs) as Hnd.
  assert (Hu : ∀ m : gmap string Z,
             <["_unknown" := Z.of_nat (size m)]> m !! "_unknown"
             = Some (Z.of_nat (size m))) by (intros m; apply lookup_insert_eq).
  split; [exact Hs|]. split; [|split; [|split]].
  - intros c. rewrite elem_of_sorted_set. exact (coin_names_spec py rows names Hn c).
  - rewrite Hu, size_numbered by exact Hnd. reflexivity.
  - intros c i Hc. rewrite lookup_insert_ne by congruence.
    apply lookup_numbered. exact Hnd.
  - intros c Hc. rewrite Hu, size_numbered by exact Hnd.
    destruct (String.eqb_spec c "_unknown") as [->|Hne].
    + rewrite lookup_insert_eq. reflexivity.
    + rewrite lookup_insert_ne by congruence.
      destruct (list_to_map _ !! c) as [i|] eqn:Ei; [|reflexivity].
      apply lookup_numbered in Ei as [_ Ei]; [|exact Hnd].
      exfalso. apply Hc. exact (list_elem_of_lookup_2 _ _ _ Ei).
Qed.

Lemma coin_encoder_codes_witness :
  ∃ coins : list string,
    StronglySorted string_lt coins ∧
    (∀ c, c ∈ coins ↔
          ∃ d, VDict d ∈ coin_rows ∧
               c = py_str demo_py (default (VStr "BTC") (d !! "coin"))) ∧
    ({["ETH" := 0; "SOL" := 1; "_unknown" := 2]} : gmap string Z) !! "_unknown"
    = Some (len coins) ∧
    (∀ c i, c ≠ "_unknown" →
            ({["ETH" := 0; "SOL" := 1; "_unknown" := 2]} : gmap string Z) !! c = Some i
            ↔ 0 <= i ∧ coins !! Z.to_nat i = Some c) ∧
    (∀ c, c ∉ coins →
          default (default 0 (({["ETH" := 0; "SOL" := 1; "_unknown" := 2]}
                               : gmap string Z) !! "_unknown"))
            (({["ETH" := 0; "SOL" := 1; "_unknown" := 2]} : gmap string Z) !! c)
          = len coins).
Proof.
  apply (coin_encoder_codes demo_py coin_rows {["ETH" := 0; "SOL" := 1; "_unknown" := 2]}).
  vm_compute. reflexivity.
Defined.

(** X13: training and scoring fit together. After a run of [train] that
    succeeds (the libraries answer and the model directory can be
    written), [score] finds the three artifacts: the classifier that was
    fitted, the coin encoder that was built and, when the JSON codec
    gives back the metadata it wrote, that metadata; every numeric answer
    of [score] then carries as [modelSamples] the number of samples the
    model was trained on. *)
Theorem train_then_score (py : Builtins) (lib : Libs) (data_path : string)
    (live_path : option string) (w : world) (rows : list value) (enc : gmap string Z)
    (cv_scores : list spec_float) (clf : classifier) :
  train_imports lib = None →
  load_rows py data_path live_path w = (Ok rows, w) →
  build_coin_encoder py rows = Ok enc →
  10 <= len (omap (spec_sample py enc) rows) →
  cross_val_score lib (omap (spec_sample py enc) rows).*1 (omap (spec_sample py enc) rows).*2
    (Z.min 5 (Z.max 2 (len (omap (spec_sample py enc) rows) / 10))) = Some cv_scores →
  fit lib (omap (spec_sample py enc) rows).*1 (omap (spec_sample py enc) rows).*2 = Some clf →
  can_write w = true →
  json_loads py
    (json_dumps py
       (VDict (training_meta lib (len (omap (spec_sample py enc) rows))
                 (cv_mean lib cv_scores) cv_scores
                 (len rows - len (omap (spec_sample py enc) rows)))))
  = Some (VDict (training_meta lib (len (omap (spec_sample py enc) rows))
                   (cv_mean lib cv_scores) cv_scores
                   (len rows - len (omap (spec_sample py enc) rows)))) →
  ∃ w' : world,
    train py lib data_path live_path w = (Ok tt, w') ∧
    load_artifacts py w'
    = (Ok (PClassifier clf, enc,
           VDict (training_meta lib (len (omap (spec_sample py enc) rows))
                    (cv_mean lib cv_scores) cv_scores
                    (len rows - len (omap (spec_sample py enc) rows)))), w') ∧
    ∀ stdin s samples,
      score py lib stdin w'
      = (Ok tt, {| fs := fs w';
                   stdout := stdout w' ++ [[("score", VFloat s);
                                            ("modelSamples", samples)]] |}) →
      samples = VInt (len (omap (spec_sample py enc) rows)).
Proof.
  intros Hi Hl Henc Hn Hcv Hfit Hw Hjson.
  pose proof (train_loaded py lib data_path live_path w rows Hi Hl) as Ht.
  cbv zeta in Ht. rewrite Henc, Hcv, Hfit in Ht.
  assert (Hrows : (len rows <? 10) = false).
  { pose proof (len_omap_le (spec_sample py enc) rows). apply Z.ltb_ge. lia. }
  apply Z.ltb_ge in Hn. rewrite Hrows, Hn in Ht.
  rewrite (save_artifacts_ok py clf enc _ w Hw) in Ht.
  eexists. split; [exact Ht|].
  destruct (paths_distinct) as (H1 & H2 & H3 & H4 & H5 & H6).
  assert (Hload : ∀ out, load_artifacts py
            {| fs := <[meta_path :=
                         Text (json_dumps py
                                 (VDict (training_meta lib (len (omap (spec_sample py enc) rows))
                                           (cv_mean lib cv_scores) cv_scores
                                           (len rows - len (omap (spec_sample py enc) rows)))))]>
                       (<[encoders_path := Pickled (PEncoders {["coin_encoder" := enc]})]>
                          (<[model_path := Pickled (PClassifier clf)]>
                             (<[MODEL_DIR := Directory]> (fs w))));
               stdout := out |}
          = (Ok (PClassifier clf, enc,
                 VDict (training_meta lib (len (omap (spec_sample py enc) rows))
                          (cv_mean lib cv_scores) cv_scores
                          (len rows - len (omap (spec_sample py enc) rows)))),
             {| fs := <[meta_path :=
                          Text (json_dumps py
                                  (VDict (training_meta lib (len (omap (spec_sample py enc) rows))
                                            (cv_mean lib cv_scores) cv_scores
                                            (len rows - len (omap (spec_sample py enc) rows)))))]>
                        (<[encoders_path := Pickled (PEncoders {["coin_encoder" := enc]})]>
                           (<[model_path := Pickled (PClassifier clf)]>
                              (<[MODEL_DIR := Directory]> (fs w))));
                stdout := out |})).
  { intros out.
    eapply load_artifacts_ok with (e := {["coin_encoder" := enc]}); cbn [fs].
    - rewrite !lookup_insert_ne by congruence. apply lookup_insert_eq.
    - rewrite lookup_insert_ne by congruence. apply lookup_insert_eq.
    - apply lookup_singleton_eq.
    - apply lookup_insert_eq.
    - exact Hjson. }
  split; [apply Hload|].
  intros stdin s samples Hs.
  rewrite (score_loaded py lib stdin _ _ _ _ (train_imports_score lib Hi) (Hload _)) in Hs.
  injection Hs as Hs. apply app_inv_head in Hs. injection Hs as Hs.
  destruct (String.eqb (strip stdin) ""); [discriminate Hs|].
  destruct (score_row py _ _ _ _) as [obj|e] eqn:Er; [|discriminate Hs].
  apply score_row_samples in Er as (s' & ->). injection Hs as _ <-.
  unfold training_meta. rewrite lookup_cons_eqb. reflexivity.
Qed.

Lemma train_then_score_witness :
  ∃ w' : world,
    train echo_py demo_lib "data.jsonl" None (demo_world 10) = (Ok tt, w') ∧
    load_artifacts echo_py w'
    = (Ok (PClassifier demo_clf, {["BTC" := 0; "_unknown" := 1]}, VDict demo_meta), w') ∧
    ∀ stdin s samples,
      score echo_py demo_lib stdin w'
      = (Ok tt, {| fs := fs w';
                   stdout := stdout w' ++ [[("score", VFloat s);
                                            ("modelSamples", samples)]] |}) →
      samples = VInt 10.
Proof.
  apply (train_then_score echo_py demo_lib "data.jsonl" None (demo_world 10)
           (replicate 10 (VDict won_row)) {["BTC" := 0; "_unknown" := 1]}
           [lit_0_5; lit_0_5] demo_clf);
    vm_compute; first [reflexivity | discriminate].
Defined.
